(** * github-interview-request-agent: the issue agent and the completion relay

    A shallow embedding of the two request handlers of the repository
    ([src/agents/github-interview-agent/index.ts] and the OpenAI relay agent)
    together with the properties stated about them.

    Strings are [String.string].  The only character the code inspects is
    ['/'], an ASCII byte that never occurs inside a multi-byte UTF-8 sequence,
    so splitting a byte string cuts at the same places as splitting the
    UTF-16 string of the JavaScript program.

    Everything the handlers reach outside their own code (the process
    environment, Octokit, the [ai] library's [generateText], the OpenAI
    client) is a field of the record [Env]; every outgoing call is recorded
    in a log of [event]s, so that "no call is made" is a statement about
    that log. *)

From Stdlib Require Import String Ascii List ZArith Bool Lia.
Import ListNotations.
Open Scope string_scope.

(** ** JavaScript primitives used by the handlers *)

Module Js.

(** A thrown value: an [Error] instance with its [message], or any other
    value, kept through what [String(value)] renders. *)
Inductive thrown : Type :=
| ErrorObj (message : string)
| NonError (rendered : string).

(** [error instanceof Error ? error.message : String(error)] *)
Definition error_text (error : thrown) : string :=
  match error with
  | ErrorObj message => message
  | NonError rendered => rendered
  end.

(** Truthiness of a string: every string but the empty one. *)
Definition truthy (s : string) : bool :=
  match s with
  | EmptyString => false
  | String _ _ => true
  end.

(** Truthiness of a value that is a string, [undefined] or [null]. *)
Definition truthy_opt (v : option string) : bool :=
  match v with
  | Some s => truthy s
  | None => false
  end.

(** [s.split(sep)] for a one-character separator: the segments between the
    occurrences of [sep], empty segments included; never the empty list. *)
Fixpoint split (sep : ascii) (s : string) : list string :=
  match s with
  | EmptyString => [EmptyString]
  | String c rest =>
      if Ascii.eqb c sep then EmptyString :: split sep rest
      else match split sep rest with
           | [] => [String c EmptyString]
           | seg :: segs => String c seg :: segs
           end
  end.

(** [xs[i]]: [undefined] outside [0 .. length - 1], also for a negative
    index such as [xs.length - 1] on the empty array. *)
Definition index {A : Type} (xs : list A) (i : Z) : option A :=
  if (i <? 0)%Z then None else nth_error xs (Z.to_nat i).

(** [hay.includes(needle)] *)
Fixpoint includes (needle hay : string) : bool :=
  if String.prefix needle hay then true
  else match hay with
       | EmptyString => false
       | String _ rest => includes needle rest
       end.

(** [s.startsWith(p)] *)
Definition startsWith (p s : string) : bool := String.prefix p s.

(** A string or [undefined] inside a template literal. *)
Definition interpolate (v : option string) : string :=
  match v with
  | Some s => s
  | None => "undefined"
  end.

(** [a ?? b] *)
Definition nullish {A : Type} (a : option A) (b : A) : A :=
  match a with
  | Some v => v
  | None => b
  end.

(** [s.endsWith(suffix)]: some tail of [s] is [suffix]. *)
Fixpoint endsWith (suffix s : string) : bool :=
  if String.eqb s suffix then true
  else match s with
       | EmptyString => false
       | String _ rest => endsWith suffix rest
       end.

(** [a || b] for a string [a] that may be [undefined]. *)
Definition or_else (a : option string) (b : string) : string :=
  match a with
  | Some s => if truthy s then s else b
  | None => b
  end.

End Js.

(** ** Outgoing calls and the effect monad *)

(** The request sent by [generateText]; the one tool is named by its key. *)
Record GenerateTextRequest : Type := {
  gt_model : string;
  gt_system : string;
  gt_prompt : string;
  gt_tools : list string;
  gt_maxSteps : Z
}.

Record ChatMessageParam : Type := {
  role : string;
  content : string
}.

Record ChatCompletionRequest : Type := {
  messages : list ChatMessageParam;
  model : string
}.

Inductive event : Type :=
| IssuesCreate (auth owner repo title body : string)
| GenerateText (request : GenerateTextRequest)
| ChatCompletionsCreate (request : ChatCompletionRequest)
| ConsoleError (label : string) (error : Js.thrown).

Inductive Result (A : Type) : Type :=
| Returned (value : A)
| Threw (error : Js.thrown).
Arguments Returned {A} value.
Arguments Threw {A} error.

(** A computation reads the log of the calls made so far and gives its
    result with the log extended by its own calls, oldest first. *)
Definition M (A : Type) : Type := list event -> Result A * list event.

Definition ret {A : Type} (a : A) : M A := fun log => (Returned a, log).

Definition bind {A B : Type} (m : M A) (k : A -> M B) : M B :=
  fun log =>
    match m log with
    | (Returned a, log') => k a log'
    | (Threw e, log') => (Threw e, log')
    end.

Definition throw {A : Type} (e : Js.thrown) : M A := fun log => (Threw e, log).

Definition emit (ev : event) : M unit := fun log => (Returned tt, (log ++ [ev])%list).

(** [try { body } catch (error) { handler }] *)
Definition try_catch {A : Type} (body : M A) (handler : Js.thrown -> M A) : M A :=
  fun log =>
    match body log with
    | (Returned a, log') => (Returned a, log')
    | (Threw e, log') => handler e log'
    end.

(** An outside call: logged, then answered by the environment. *)
Definition call {A : Type} (ev : event) (answer : Result A) : M A :=
  fun log => (answer, (log ++ [ev])%list).

Declare Scope js_scope.
Delimit Scope js_scope with js.
Notation "x <- m ;; k" := (bind m (fun x => k))
  (at level 61, m at next level, right associativity) : js_scope.
Notation "m ;;; k" := (bind m (fun _ => k))
  (at level 61, right associativity) : js_scope.
Open Scope js_scope.

(** ** Data of the issue agent *)

(** The parameters of the tool, as the zod schema declares them. *)
Record ToolArguments : Type := {
  repository : string;
  title : string;
  body : string
}.

(** The value the tool's [execute] returns, with the optional fields of the
    resolver's cast: [{ success; url?; message; error? }]. *)
Record ToolOutcome : Type := {
  success : bool;
  url : option string;
  message : string;
  error : option string
}.

Record ToolCall : Type := {
  call_toolName : string;
  call_args : ToolArguments
}.

Record ToolResult : Type := {
  result_toolName : string;
  result_args : ToolArguments;
  result : ToolOutcome
}.

(** What [generateText] resolves to, as far as the agent reads it. *)
Record GenerateTextResult : Type := {
  text : string;
  toolCalls : list ToolCall;
  toolResults : list ToolResult
}.

Record IssueResponse : Type := {
  html_url : string
}.

Record ChatMessage : Type := {
  msg_content : option string
}.

Record Choice : Type := {
  choice_message : ChatMessage
}.

Record ChatCompletion : Type := {
  choices : list Choice
}.

(** The world outside the handlers. *)
Record Env : Type := {
  (** [process.env.GITHUB_TOKEN] *)
  GITHUB_TOKEN : option string;
  (** [octokit.rest.issues.create({ owner, repo, title, body })] on the client
      built with [new Octokit({ auth })]: first argument [auth] *)
  issues_create : string -> string -> string -> string -> string -> Result IssueResponse;
  (** [generateText({ ... })] of the [ai] library *)
  generateText : GenerateTextRequest -> Result GenerateTextResult;
  (** [client.chat.completions.create({ ... })] of the OpenAI client *)
  chat_completions_create : ChatCompletionRequest -> Result ChatCompletion;
  (** the message of the engine's [TypeError] for reading the named property
      of [undefined] *)
  undefined_read_message : string -> string
}.

(** ** The issue agent: [src/agents/github-interview-agent/index.ts] *)

Module IssueAgent.

(** [console.error(label, error)] *)
Definition console_error (label : string) (error : Js.thrown) : M unit :=
  emit (ConsoleError label error).

Definition token_missing_message : string :=
  "GitHub token is not configured. Please set the GITHUB_TOKEN environment variable.".

Definition invalid_repository_message : string :=
  "Invalid repository format. Please use the format: owner/repo".

(** [createGitHubIssueTool.execute].  The client built by
    [new Octokit({ auth: githubToken })] is the [auth] argument of the one
    call made through it. *)
Definition execute (env : Env) (args : ToolArguments) : M ToolOutcome :=
  match GITHUB_TOKEN env with
  | None => throw (Js.ErrorObj token_missing_message)
  | Some githubToken =>
      if negb (Js.truthy githubToken)
      then throw (Js.ErrorObj token_missing_message)
      else
        try_catch
          (let parts := Js.split "/" (repository args) in
           let owner := Js.index parts 0 in
           let repo := Js.index parts 1 in
           match owner, repo with
           | Some owner, Some repo =>
               if negb (Js.truthy owner) || negb (Js.truthy repo)
               then throw (Js.ErrorObj invalid_repository_message)
               else
                 response <- call
                   (IssuesCreate githubToken owner repo (title args) (body args))
                   (issues_create env githubToken owner repo
                      (title args) (body args)) ;;
                 ret {| success := true;
                        url := Some (html_url response);
                        message := "Issue created successfully in "
                                   ++ repository args ++ "!";
                        error := None |}
           | _, _ => throw (Js.ErrorObj invalid_repository_message)
           end)
          (fun error =>
             console_error "Error creating issue:" error ;;;
             ret {| success := false;
                    url := None;
                    message := "Failed to create issue: " ++ Js.error_text error;
                    error := Some (Js.error_text error) |})
  end.

Definition system_prompt : string :=
  "You are an AI assistant that helps users create GitHub issues.
			Your primary function is to extract relevant information from the user's request and use it to populate the fields for creating a GitHub issue using the `createGitHubIssue` tool,
			the user might provide the relvant data in many formats some explicit and other implicit, like links, extract the data from that but dont guess anything.
			If critical information such as the target repository or a clear title for the issue is missing from the user's request, 
			you must inform the user, explaining what specific pieces of information are needed to proceed. 
			Based on the user's request, generate a detailed and well-formatted markdown description for the GitHub issue. 
			This description should accurately reflect the user's intent.".

(** The argument of the agent's one [generateText] call. *)
Definition request_for (requestText : string) : GenerateTextRequest :=
  {| gt_model := "gemini-2.0-flash";
     gt_system := system_prompt;
     gt_prompt := requestText;
     gt_tools := ["createGitHubIssue"];
     gt_maxSteps := 2 |}.

Definition provide_details_message : string :=
  "Please provide details about the issue you want to create.".

(** The part of [Agent] after [generateText] has resolved to [generated]
    (the source's [result]). *)
Definition respond (env : Env) (generated : GenerateTextResult) : M string :=
  if (Z.of_nat (List.length (toolCalls generated)) =? 0)%Z
  then ret (text generated)
  else
    let lastToolCall :=
      Js.index (toolResults generated)
               (Z.of_nat (List.length (toolResults generated)) - 1) in
    let issueResult := option_map result lastToolCall in
    match issueResult with
    | None => throw (Js.ErrorObj (undefined_read_message env "success"))
    | Some issueResult =>
        if success issueResult && Js.truthy_opt (url issueResult)
        then ret (message issueResult ++ " View it at: "
                  ++ Js.interpolate (url issueResult))
        else ret (message issueResult)
    end.

(** [Agent]: [requestText] is what [await req.data.text()] gave, the value
    is the text handed to [resp.text]. *)
Definition Agent (env : Env) (requestText : option string) : M string :=
  match requestText with
  | None => ret provide_details_message
  | Some requestText =>
      if negb (Js.truthy requestText)
      then ret provide_details_message
      else
        try_catch
          (generated <- call (GenerateText (request_for requestText))
                             (generateText env (request_for requestText)) ;;
           respond env generated)
          (fun error =>
             console_error "Error in GitHub issue agent:" error ;;;
             ret ("An error occurred while processing your request: "
                  ++ Js.error_text error))
  end.

End IssueAgent.

(** ** The completion relay (the OpenAI agent) *)

Module RelayAgent.

Definition fallback_prompt : string := "Say this is a test".

Definition fallback_reply : string := "Something went wrong".

(** The argument of [client.chat.completions.create]. *)
Definition request_for (requestText : option string) : ChatCompletionRequest :=
  {| messages := [ {| role := "user";
                      content := Js.nullish requestText fallback_prompt |} ];
     model := "gpt-4o" |}.

(** [Agent]: [requestText] is what [await req.data.text()] gave, the value
    is the text handed to [resp.text]. *)
Definition Agent (env : Env) (requestText : option string) : M string :=
  completion <- call (ChatCompletionsCreate (request_for requestText))
                     (chat_completions_create env (request_for requestText)) ;;
  let message := option_map choice_message (Js.index (choices completion) 0) in
  ret (Js.nullish (match message with
                   | Some message => msg_content message
                   | None => None
                   end)
                  fallback_reply).

End RelayAgent.

(** ** The start-up script (the project's root [index.ts]) *)

Module Bootstrap.

(** What the promise returned by [runner] is rejected with: an [Error] with
    its [message] and [stack], or any other value as the console prints
    it. *)
Inductive rejection : Type :=
| RejectedError (message : string) (stack : option string)
| RejectedOther (rendered : string).

(** The process as the script sees it. *)
Record Process : Type := {
  AGENTUITY_API_KEY : option string;
  AGENTUITY_SDK_KEY : option string;
  AGENTUITY_URL : option string;
  (** [process.env._] *)
  underscore : option string;
  (** [process.isBun] *)
  isBun : bool;
  (** [import.meta.dirname] *)
  dirname : string;
  (** [runner(flag, dir)]: [None] when the promise is never rejected *)
  runner : bool -> string -> option rejection
}.

(** What the script does that can be seen from outside, in order. *)
Inductive output : Type :=
| ErrorLine (value : option string)
| WarnLine (text : string)
| RunnerStarted (flag : bool) (dir : string).

(** A step of the script either goes on or ends the process with a code. *)
Inductive Step (A : Type) : Type :=
| Continue (value : A)
| Exited (code : Z).
Arguments Continue {A} value.
Arguments Exited {A} code.

Definition B (A : Type) : Type := list output -> Step A * list output.

Definition done : B unit := fun out => (Continue tt, out).

Definition andThen {A C : Type} (m : B A) (k : A -> B C) : B C :=
  fun out =>
    match m out with
    | (Continue a, out') => k a out'
    | (Exited code, out') => (Exited code, out')
    end.

Definition say (o : output) : B unit :=
  fun out => (Continue tt, (out ++ [o])%list).

(** [process.exit(code)] *)
Definition exit {A : Type} (code : Z) : B A := fun out => (Exited code, out).

Declare Scope boot_scope.
Delimit Scope boot_scope with boot.
Notation "m >> k" := (andThen m (fun _ => k))
  (at level 62, right associativity) : boot_scope.
Notation "'when' c 'then' m" := (if c then m else done)
  (at level 60, c at level 9) : boot_scope.

Definition esc : string := String "027"%char "".

Definition missing_key_message : string :=
  esc ++ "[31m[ERROR] AGENTUITY_API_KEY or AGENTUITY_SDK_KEY is not set. This should have been set automatically by the Agentuity CLI or picked up from the .env file." ++ esc ++ "[0m".

Definition rerun_message : string :=
  esc ++ "[31m[ERROR] Re-run the command with `node --env-file .env index.ts`" ++ esc ++ "[0m".

Definition outside_message : string :=
  esc ++ "[31m[WARN] You are running this agent outside of the Agentuity environment. Any automatic Agentuity features will be disabled." ++ esc ++ "[0m".

Definition bun_message : string :=
  esc ++ "[31m[WARN] Recommend running `agentuity dev` to run your project locally instead of bun run start." ++ esc ++ "[0m".

Definition npm_message : string :=
  esc ++ "[31m[WARN] Recommend running `agentuity dev` to run your project locally instead of npm start." ++ esc ++ "[0m".

(** The handler given to [.catch]. *)
Definition on_rejection (err : rejection) : B unit :=
  (match err with
   | RejectedError message stack =>
       say (ErrorLine (Some message)) >> say (ErrorLine stack)
   | RejectedOther rendered =>
       say (ErrorLine (Some rendered))
   end >>
   exit 1)%boot.

(** The script, top to bottom. *)
Definition main (p : Process) : B unit :=
  ((when (negb (Js.truthy_opt (AGENTUITY_API_KEY p))
          && negb (Js.truthy_opt (AGENTUITY_SDK_KEY p)))
    then (say (ErrorLine (Some missing_key_message)) >>
          let cmd := Js.or_else (underscore p) "" in
          (when (Js.endsWith "node" cmd)
           then say (ErrorLine (Some rerun_message))) >>
          exit 1)) >>
   (when (negb (Js.truthy_opt (AGENTUITY_URL p)))
    then (say (WarnLine outside_message) >>
          if isBun p
          then say (WarnLine bun_message)
          else say (WarnLine npm_message))) >>
   say (RunnerStarted true (dirname p)) >>
   match runner p true (dirname p) with
   | Some err => on_rejection err
   | None => done
   end)%boot.

End Bootstrap.

(** ** Vocabulary of the properties *)

(** The repository shape in the words of the specification: exactly one
    ['/'], with a non-empty segment on each side. *)
Definition owner_repo_shape (repository : string) : bool :=
  match Js.split "/" repository with
  | [owner; repo] => Js.truthy owner && Js.truthy repo
  | _ => false
  end.

(** The test the handler applies: the first two segments exist and are
    non-empty, whatever follows them. *)
Definition handler_accepts (repository : string) : bool :=
  match Js.split "/" repository with
  | owner :: repo :: _ => Js.truthy owner && Js.truthy repo
  | _ => false
  end.

(** No entry of the log is a call to the issue-creation API. *)
Fixpoint no_issue_call (log : list event) : bool :=
  match log with
  | [] => true
  | IssuesCreate _ _ _ _ _ :: _ => false
  | _ :: rest => no_issue_call rest
  end.

(** The shape of an outcome: a non-empty message; [url] without [error] on
    success, [error] without [url] on failure. *)
Definition outcome_shape (o : ToolOutcome) : bool :=
  Js.truthy (message o)
  && (if success o
      then match url o, error o with Some _, None => true | _, _ => false end
      else match url o, error o with None, Some _ => true | _, _ => false end).

(** The error the handler throws at a repository it rejects. *)
Definition invalid : Js.thrown :=
  Js.ErrorObj IssueAgent.invalid_repository_message.

(** The outcome of the handler's [catch] block for the thrown [e]. *)
Definition failure_outcome (e : Js.thrown) : ToolOutcome :=
  {| success := false;
     url := None;
     message := "Failed to create issue: " ++ Js.error_text e;
     error := Some (Js.error_text e) |}.

(** The outcome of the handler's success path. *)
Definition created_outcome (args : ToolArguments) (response : IssueResponse)
    : ToolOutcome :=
  {| success := true;
     url := Some (html_url response);
     message := "Issue created successfully in " ++ repository args ++ "!";
     error := None |}.

(** [generated] with its tool results replaced. *)
Definition with_toolResults (results : list ToolResult)
    (generated : GenerateTextResult) : GenerateTextResult :=
  {| text := text generated;
     toolCalls := toolCalls generated;
     toolResults := results |}.

(** The number of calls to the issue-creation API in a log. *)
Fixpoint issue_calls (log : list event) : nat :=
  match log with
  | [] => 0
  | IssuesCreate _ _ _ _ _ :: rest => S (issue_calls rest)
  | _ :: rest => issue_calls rest
  end.

(** Every entry of the log is a [console.error]. *)
Fixpoint only_console_errors (log : list event) : bool :=
  match log with
  | [] => true
  | ConsoleError _ _ :: rest => only_console_errors rest
  | _ :: _ => false
  end.

(** At least one of the two keys the start-up script looks for is set. *)
Definition keys_set (p : Bootstrap.Process) : bool :=
  Js.truthy_opt (Bootstrap.AGENTUITY_API_KEY p)
  || Js.truthy_opt (Bootstrap.AGENTUITY_SDK_KEY p).

(** How often the runner is started in an output. *)
Fixpoint runner_starts (out : list Bootstrap.output) : nat :=
  match out with
  | [] => 0
  | Bootstrap.RunnerStarted _ _ :: rest => S (runner_starts rest)
  | _ :: rest => runner_starts rest
  end.

(** The texts given to [console.warn], in order. *)
Fixpoint warn_lines (out : list Bootstrap.output) : list string :=
  match out with
  | [] => []
  | Bootstrap.WarnLine text :: rest => text :: warn_lines rest
  | _ :: rest => warn_lines rest
  end.

(** The values given to [console.error], in order. *)
Fixpoint error_lines (out : list Bootstrap.output) : list (option string) :=
  match out with
  | [] => []
  | Bootstrap.ErrorLine value :: rest => value :: error_lines rest
  | _ :: rest => error_lines rest
  end.

(** What the runner's rejection, if any, makes the start-up script
    print. *)
Definition rejection_report (p : Bootstrap.Process) : list Bootstrap.output :=
  match Bootstrap.runner p true (Bootstrap.dirname p) with
  | Some (Bootstrap.RejectedError message stack) =>
      [Bootstrap.ErrorLine (Some message); Bootstrap.ErrorLine stack]
  | Some (Bootstrap.RejectedOther rendered) =>
      [Bootstrap.ErrorLine (Some rendered)]
  | None => []
  end.

(** ** Sample worlds *)

Module Sample.

(** The message V8 gives for reading a property of [undefined]. *)
Definition v8_undefined_read (property : string) : string :=
  "Cannot read properties of undefined (reading '" ++ property ++ "')".

Definition clarification : GenerateTextResult :=
  {| text := "Which repository should the issue go to?";
     toolCalls := [];
     toolResults := [] |}.

(** A world where the token is set and every outside call succeeds. *)
Definition env : Env :=
  {| GITHUB_TOKEN := Some "ghp_example";
     issues_create := fun _ owner repo _ _ =>
       Returned {| html_url := "https://github.com/" ++ owner ++ "/" ++ repo
                               ++ "/issues/42" |};
     generateText := fun _ => Returned clarification;
     chat_completions_create := fun _ =>
       Returned {| choices := [ {| choice_message :=
                                     {| msg_content := Some "This is a test" |} |} ] |};
     undefined_read_message := v8_undefined_read |}.

(** [world] with another token. *)
Definition with_token (token : option string) (world : Env) : Env :=
  {| GITHUB_TOKEN := token;
     issues_create := issues_create world;
     generateText := generateText world;
     chat_completions_create := chat_completions_create world;
     undefined_read_message := undefined_read_message world |}.

(** [world] where the issue API fails with [failure]. *)
Definition with_api_failure (failure : Js.thrown) (world : Env) : Env :=
  {| GITHUB_TOKEN := GITHUB_TOKEN world;
     issues_create := fun _ _ _ _ _ => Threw failure;
     generateText := generateText world;
     chat_completions_create := chat_completions_create world;
     undefined_read_message := undefined_read_message world |}.

(** [world] where [generateText] resolves to [generated]. *)
Definition with_generated (generated : GenerateTextResult) (world : Env) : Env :=
  {| GITHUB_TOKEN := GITHUB_TOKEN world;
     issues_create := issues_create world;
     generateText := fun _ => Returned generated;
     chat_completions_create := chat_completions_create world;
     undefined_read_message := undefined_read_message world |}.

Definition widgets : ToolArguments :=
  {| repository := "acme/widgets";
     title := "Crash on startup";
     body := "A null pointer on launch." |}.

Definition nested : ToolArguments :=
  {| repository := "a/b/c"; title := "t"; body := "b" |}.

Definition a_call : ToolCall :=
  {| call_toolName := "createGitHubIssue"; call_args := widgets |}.

Definition a_result (o : ToolOutcome) : ToolResult :=
  {| result_toolName := "createGitHubIssue";
     result_args := widgets;
     result := o |}.

Definition created : ToolOutcome :=
  {| success := true;
     url := Some "https://github.com/acme/widgets/issues/42";
     message := "Issue created successfully in acme/widgets!";
     error := None |}.

Definition failed : ToolOutcome :=
  {| success := false;
     url := None;
     message := "Failed to create issue: Not Found";
     error := Some "Not Found" |}.

(** A success reported with an empty url. *)
Definition created_blank : ToolOutcome :=
  {| success := true;
     url := Some "";
     message := "Issue created successfully in acme/widgets!";
     error := None |}.

(** An API error whose text happens to carry the words of the success
    line. *)
Definition api_error : Js.thrown :=
  Js.ErrorObj "Validation Failed. View it at: https://docs.github.com/rest".

Definition generated_with (results : list ToolResult) : GenerateTextResult :=
  {| text := "Done."; toolCalls := [a_call]; toolResults := results |}.

(** A process started by [node] with no key in its environment. *)
Definition bare_process : Bootstrap.Process :=
  {| Bootstrap.AGENTUITY_API_KEY := None;
     Bootstrap.AGENTUITY_SDK_KEY := Some "";
     Bootstrap.AGENTUITY_URL := None;
     Bootstrap.underscore := Some "/usr/local/bin/node";
     Bootstrap.isBun := false;
     Bootstrap.dirname := "/app";
     Bootstrap.runner := fun _ _ => None |}.

(** A process with a key, outside the hosted environment, whose runner
    fails. *)
Definition failing_process : Bootstrap.Process :=
  {| Bootstrap.AGENTUITY_API_KEY := Some "key";
     Bootstrap.AGENTUITY_SDK_KEY := None;
     Bootstrap.AGENTUITY_URL := None;
     Bootstrap.underscore := Some "/usr/local/bin/bun";
     Bootstrap.isBun := true;
     Bootstrap.dirname := "/app";
     Bootstrap.runner := fun _ _ =>
       Some (Bootstrap.RejectedError "port in use" (Some "Error: port in use")) |}.

(** [world] where [generateText] throws [failure]. *)
Definition with_model_failure (failure : Js.thrown) (world : Env) : Env :=
  {| GITHUB_TOKEN := GITHUB_TOKEN world;
     issues_create := issues_create world;
     generateText := fun _ => Threw failure;
     chat_completions_create := chat_completions_create world;
     undefined_read_message := undefined_read_message world |}.

(** [world] where the chat-completion call is answered by [answer]. *)
Definition with_completion (answer : Result ChatCompletion) (world : Env) : Env :=
  {| GITHUB_TOKEN := GITHUB_TOKEN world;
     issues_create := issues_create world;
     generateText := generateText world;
     chat_completions_create := fun _ => answer;
     undefined_read_message := undefined_read_message world |}.

(** A success reported without any url. *)
Definition created_unlinked : ToolOutcome :=
  {| success := true;
     url := None;
     message := "Issue created successfully in acme/widgets!";
     error := None |}.

(** What the issue API answers in [env] for [widgets]. *)
Definition widgets_response : IssueResponse :=
  {| html_url := "https://github.com/acme/widgets/issues/42" |}.

End Sample.

(** ** Facts about the JavaScript primitives *)

Section JsFacts.

Lemma split_not_nil (sep : ascii) (s : string) : Js.split sep s <> [].
Proof.
  destruct s as [|c rest]; simpl; [discriminate|].
  destruct (Ascii.eqb c sep); [discriminate|].
  destruct (Js.split sep rest); discriminate.
Qed.

Lemma prefix_iff_append (p s : string) :
  String.prefix p s = true <-> exists post, s = p ++ post.
Proof.
  revert s; induction p as [|a p IH]; intros s; simpl.
  - destruct s; split; eauto.
  - destruct s as [|b s]; simpl.
    + split; [discriminate|]. intros [post H]; discriminate.
    + destruct (ascii_dec a b) as [->|Hne].
      * rewrite IH. split; intros [post H]; exists post; congruence.
      * split; [discriminate|]. intros [post H]. congruence.
Qed.

Lemma startsWith_append (p s : string) : Js.startsWith p (p ++ s) = true.
Proof. apply prefix_iff_append; eauto. Qed.

Lemma append_assoc (a b c : string) : (a ++ b) ++ c = a ++ (b ++ c).
Proof. induction a as [|x a IH]; simpl; congruence. Qed.

Lemma includes_unfold (needle hay : string) :
  Js.includes needle hay =
  if String.prefix needle hay then true
  else match hay with
       | EmptyString => false
       | String _ rest => Js.includes needle rest
       end.
Proof. destruct hay; reflexivity. Qed.

(** [includes] holds exactly of the strings that carry the needle
    somewhere inside them. *)
Lemma includes_iff (needle hay : string) :
  Js.includes needle hay = true <->
  exists pre post, hay = pre ++ needle ++ post.
Proof.
  split.
  - induction hay as [|c hay IH]; rewrite includes_unfold;
      destruct (String.prefix needle _) eqn:Hp.
    + intros _. apply prefix_iff_append in Hp as [post Hp].
      exists "", post. exact Hp.
    + intros H; discriminate H.
    + intros _. apply prefix_iff_append in Hp as [post Hp].
      exists "", post. exact Hp.
    + intros H. destruct (IH H) as (pre & post & ->).
      exists (String c pre), post. reflexivity.
  - intros (pre & post & ->).
    induction pre as [|c pre IH]; rewrite includes_unfold.
    + rewrite (proj2 (prefix_iff_append needle ("" ++ needle ++ post)))
        by (exists post; reflexivity).
      reflexivity.
    + destruct (String.prefix needle _); [reflexivity|]. exact IH.
Qed.

Lemma includes_append_r (needle pre s : string) :
  Js.includes needle s = true -> Js.includes needle (pre ++ s) = true.
Proof.
  rewrite !includes_iff. intros (a & b & ->).
  exists (pre ++ a), b. now rewrite append_assoc.
Qed.

Lemma index_last {A : Type} (xs : list A) (x : A) :
  Js.index (xs ++ [x]) (Z.of_nat (List.length (xs ++ [x])) - 1) = Some x.
Proof.
  unfold Js.index. rewrite length_app. simpl.
  destruct (Z.ltb_spec (Z.of_nat (List.length xs + 1) - 1) 0) as [H|H]; [lia|].
  replace (Z.to_nat (Z.of_nat (List.length xs + 1) - 1)) with (List.length xs) by lia.
  rewrite nth_error_app2 by lia. now rewrite Nat.sub_diag.
Qed.

Lemma index_last_nil {A : Type} :
  Js.index (@nil A) (Z.of_nat (List.length (@nil A)) - 1) = None.
Proof. reflexivity. Qed.

Lemma toolCalls_test (calls : list ToolCall) :
  (Z.of_nat (List.length calls) =? 0)%Z = match calls with [] => true | _ => false end.
Proof. destruct calls; reflexivity. Qed.

End JsFacts.

(** ** The tool handler *)

Section ToolHandler.

Variable env : Env.
Variable args : ToolArguments.
Variable log : list event.

(** Without a usable token the handler throws before its [try] block, and
    nothing is called. *)
Lemma execute_without_token :
  Js.truthy_opt (GITHUB_TOKEN env) = false ->
  IssueAgent.execute env args log
  = (Threw (Js.ErrorObj IssueAgent.token_missing_message), log).
Proof.
  unfold IssueAgent.execute. destruct (GITHUB_TOKEN env) as [tok|]; simpl.
  - intros ->. reflexivity.
  - reflexivity.
Qed.

(** With a token, the run of the handler case by case. *)
Lemma execute_with_token (githubToken : string) :
  GITHUB_TOKEN env = Some githubToken ->
  Js.truthy githubToken = true ->
  IssueAgent.execute env args log
  = match Js.split "/" (repository args) with
    | owner :: repo :: _ =>
        if Js.truthy owner && Js.truthy repo
        then
          let ev := IssuesCreate githubToken owner repo (title args) (body args) in
          match issues_create env githubToken owner repo (title args) (body args) with
          | Returned response =>
              (Returned (created_outcome args response), (log ++ [ev])%list)
          | Threw e =>
              (Returned (failure_outcome e),
               (log ++ [ev; ConsoleError "Error creating issue:" e])%list)
          end
        else (Returned (failure_outcome invalid),
              (log ++ [ConsoleError "Error creating issue:" invalid])%list)
    | _ => (Returned (failure_outcome invalid),
            (log ++ [ConsoleError "Error creating issue:" invalid])%list)
    end.
Proof.
  intros Htok Htruthy. unfold IssueAgent.execute.
  rewrite Htok, Htruthy. cbn [negb].
  unfold try_catch, bind, call, throw, ret, IssueAgent.console_error, emit.
  destruct (Js.split "/" (repository args)) as [|owner [|repo rest]];
    [reflexivity | reflexivity |].
  change (Js.index (owner :: repo :: rest) 0) with (Some owner).
  change (Js.index (owner :: repo :: rest) 1) with (Some repo).
  cbn beta iota.
  destruct (Js.truthy owner), (Js.truthy repo); try reflexivity.
  cbn [negb orb andb].
  destruct (issues_create env githubToken owner repo (title args) (body args));
    [reflexivity|].
  rewrite <- app_assoc. reflexivity.
Qed.

End ToolHandler.

Section ToolHandlerProperties.

Lemma no_issue_call_app (l1 l2 : list event) :
  no_issue_call (l1 ++ l2) = no_issue_call l1 && no_issue_call l2.
Proof.
  induction l1 as [|ev l1 IH]; [reflexivity|].
  destruct ev; simpl; auto.
Qed.

Lemma shape_accepted (repository : string) :
  owner_repo_shape repository = true -> handler_accepts repository = true.
Proof.
  unfold owner_repo_shape, handler_accepts.
  destruct (Js.split "/" repository) as [|owner [|repo [|extra rest]]];
    auto; discriminate.
Qed.

(** The handler's test goes beyond the specified shape only on strings
    with more than two segments. *)
Lemma accepted_beyond_shape (repository : string) :
  handler_accepts repository = true ->
  owner_repo_shape repository = false ->
  exists owner repo extra rest,
    Js.split "/" repository = owner :: repo :: extra :: rest.
Proof.
  unfold owner_repo_shape, handler_accepts.
  destruct (Js.split "/" repository) as [|owner [|repo [|extra rest]]];
    try discriminate.
  - intros ->. discriminate.
  - intros _ _. exists owner, repo, extra, rest. reflexivity.
Qed.

(** What the handler's test accepts. *)
Lemma handler_accepts_iff (repository : string) :
  handler_accepts repository = true <->
  exists owner repo rest,
    Js.split "/" repository = owner :: repo :: rest
    /\ owner <> "" /\ repo <> "".
Proof.
  unfold handler_accepts.
  destruct (Js.split "/" repository) as [|owner [|repo rest]].
  - split; [discriminate|]. intros (o & r & l & H & _); discriminate.
  - split; [discriminate|]. intros (o & r & l & H & _); discriminate.
  - split.
    + intros H. exists owner, repo, rest.
      destruct owner, repo; try discriminate; repeat split; discriminate.
    + intros (o & r & l & H & Ho & Hr). injection H as <- <- <-.
      destruct owner, repo; try reflexivity; congruence.
Qed.

(** What the handler does at a repository its test rejects: the failure
    outcome of the claim, and no call to the issue API. *)
Lemma execute_rejected (env : Env) (args : ToolArguments) (log : list event) :
  Js.truthy_opt (GITHUB_TOKEN env) = true ->
  handler_accepts (repository args) = false ->
  exists o log',
    IssueAgent.execute env args log = (Returned o, (log ++ log')%list)
    /\ success o = false
    /\ Js.includes "Invalid repository format" (message o) = true
    /\ no_issue_call log' = true.
Proof.
  intros Htok Hrej.
  destruct (GITHUB_TOKEN env) as [tok|] eqn:E; [|discriminate].
  rewrite (execute_with_token env args log tok E Htok).
  unfold handler_accepts in Hrej.
  exists (failure_outcome invalid), [ConsoleError "Error creating issue:" invalid].
  destruct (Js.split "/" (repository args)) as [|owner [|repo rest]];
    [| |rewrite Hrej]; repeat split; reflexivity.
Qed.

(** C1, at the repository ["a/b/c"]: the string does not have the shape
    owner/repo, yet the handler takes its first two segments, calls the
    issue API with owner ["a"] and repo ["b"], and reports success. *)
Theorem execute_extra_segment_reaches_api :
  owner_repo_shape (repository Sample.nested) = false
  /\ IssueAgent.execute Sample.env Sample.nested []
     = (Returned {| success := true;
                    url := Some "https://github.com/a/b/issues/42";
                    message := "Issue created successfully in a/b/c!";
                    error := None |},
        [IssuesCreate "ghp_example" "a" "b" "t" "b"]).
Proof. split; reflexivity. Qed.

(** The same in every world with a token: two leading non-empty segments
    are enough for the call to be made, whatever follows them. *)
Lemma execute_accepted_calls_api (env : Env) (args : ToolArguments)
    (log : list event) (githubToken owner repo : string) (rest : list string) :
  GITHUB_TOKEN env = Some githubToken ->
  Js.truthy githubToken = true ->
  Js.split "/" (repository args) = owner :: repo :: rest ->
  owner <> "" -> repo <> "" ->
  exists log',
    snd (IssueAgent.execute env args log)
    = (log ++ IssuesCreate githubToken owner repo (title args) (body args)
           :: log')%list.
Proof.
  intros Htok Htruthy Hsplit Ho Hr.
  rewrite (execute_with_token env args log githubToken Htok Htruthy), Hsplit.
  destruct owner; [congruence|]. destruct repo; [congruence|].
  cbn [Js.truthy andb].
  destruct (issues_create env githubToken _ _ _ _).
  - exists []. reflexivity.
  - eexists. reflexivity.
Qed.

(** C2 as stated fails: without [GITHUB_TOKEN] the handler throws. *)
Lemma execute_throws_without_token :
  ~ (forall (env : Env) (args : ToolArguments) (log : list event),
        exists o log', IssueAgent.execute env args log = (Returned o, log')).
Proof.
  intros H.
  destruct (H (Sample.with_token None Sample.env) Sample.widgets [])
    as (o & log' & E).
  discriminate E.
Qed.

(** C2, amended: with a non-empty [GITHUB_TOKEN] the handler never throws.
    It returns an outcome; a rejected repository and a failing API call both
    give an outcome with [success = false]; and every outcome with
    [success = false] carries an error string [m] and the message
    ["Failed to create issue: " ++ m]. *)
Theorem execute_with_token_never_throws (env : Env) (args : ToolArguments)
    (log : list event) :
  Js.truthy_opt (GITHUB_TOKEN env) = true ->
  exists o log',
    IssueAgent.execute env args log = (Returned o, log')
    /\ (success o = false ->
        exists m, error o = Some m
                  /\ message o = "Failed to create issue: " ++ m)
    /\ (handler_accepts (repository args) = false ->
        o = failure_outcome invalid)
    /\ (forall githubToken owner repo rest e,
          GITHUB_TOKEN env = Some githubToken ->
          Js.split "/" (repository args) = owner :: repo :: rest ->
          handler_accepts (repository args) = true ->
          issues_create env githubToken owner repo (title args) (body args)
          = Threw e ->
          o = failure_outcome e).
Proof.
  intros Htok.
  destruct (GITHUB_TOKEN env) as [tok|] eqn:E; [|discriminate].
  rewrite (execute_with_token env args log tok E Htok).
  unfold handler_accepts.
  destruct (Js.split "/" (repository args)) as [|owner [|repo rest]].
  1,2: eexists; eexists; split; [reflexivity|]; split; [|split];
       [ intros _; eexists; split; reflexivity
       | reflexivity
       | intros ? ? ? ? ? _ Hs; discriminate Hs ].
  destruct (Js.truthy owner && Js.truthy repo) eqn:Hacc.
  - cbv zeta.
    destruct (issues_create env tok owner repo (title args) (body args))
      as [response|e] eqn:Hapi.
    + eexists; eexists; split; [reflexivity|]; split; [|split].
      * intros Hs; discriminate Hs.
      * intros Hs; discriminate Hs.
      * intros tok' o' r' l' e' Ht Hs _ Hthrow.
        injection Ht as <-. injection Hs as <- <- <-.
        rewrite Hapi in Hthrow. discriminate Hthrow.
    + eexists; eexists; split; [reflexivity|]; split; [|split].
      * intros _; eexists; split; reflexivity.
      * intros Hs; discriminate Hs.
      * intros tok' o' r' l' e' Ht Hs _ Hthrow.
        injection Ht as <-. injection Hs as <- <- <-.
        rewrite Hapi in Hthrow. injection Hthrow as <-. reflexivity.
  - eexists; eexists; split; [reflexivity|]; split; [|split].
    + intros _; eexists; split; reflexivity.
    + reflexivity.
    + intros ? ? ? ? ? _ _ Hs; discriminate Hs.
Qed.

Lemma execute_with_token_never_throws_witness :
  Js.truthy_opt (GITHUB_TOKEN (Sample.with_api_failure (Js.ErrorObj "Not Found") Sample.env)) = true
  /\ exists o log',
       IssueAgent.execute (Sample.with_api_failure (Js.ErrorObj "Not Found") Sample.env)
                          Sample.widgets [] = (Returned o, log')
       /\ (success o = false ->
           exists m, error o = Some m
                     /\ message o = "Failed to create issue: " ++ m).
Proof.
  split; [reflexivity|].
  destruct (execute_with_token_never_throws
              (Sample.with_api_failure (Js.ErrorObj "Not Found") Sample.env)
              Sample.widgets [] eq_refl) as (o & log' & E & Hfail & _).
  exists o, log'. split; assumption.
Defined.

(** C9: every outcome the handler returns has a non-empty message; a
    successful one has a url and no error, a failed one an error and no
    url. *)
Theorem execute_outcome_shape (env : Env) (args : ToolArguments)
    (log log' : list event) (o : ToolOutcome) :
  IssueAgent.execute env args log = (Returned o, log') ->
  outcome_shape o = true.
Proof.
  destruct (Js.truthy_opt (GITHUB_TOKEN env)) eqn:Htok.
  - destruct (GITHUB_TOKEN env) as [tok|] eqn:E; [|discriminate].
    rewrite (execute_with_token env args log tok E Htok).
    assert (Hfail : forall e, outcome_shape (failure_outcome e) = true)
      by reflexivity.
    destruct (Js.split "/" (repository args)) as [|owner [|repo rest]].
    1,2: intros H; injection H as <- _; apply Hfail.
    destruct (Js.truthy owner && Js.truthy repo).
    + cbv zeta. destruct (issues_create env tok owner repo _ _).
      * intros H; injection H as <- _. reflexivity.
      * intros H; injection H as <- _. apply Hfail.
    + intros H; injection H as <- _. apply Hfail.
  - rewrite (execute_without_token env args log Htok). intros H; discriminate H.
Qed.

Lemma execute_outcome_shape_witness :
  IssueAgent.execute Sample.env Sample.widgets []
  = (Returned Sample.created,
     [IssuesCreate "ghp_example" "acme" "widgets" "Crash on startup"
                   "A null pointer on launch."])
  /\ outcome_shape Sample.created = true.
Proof.
  split; [reflexivity|].
  exact (execute_outcome_shape Sample.env Sample.widgets [] _ Sample.created
           eq_refl).
Defined.

End ToolHandlerProperties.

(** ** The resolver *)

Section Resolver.

Variable env : Env.
Variable requestText : string.
Variable log : list event.
Variable generated : GenerateTextResult.

Hypothesis request_given : Js.truthy requestText = true.
Hypothesis model_answered :
  generateText env (IssueAgent.request_for requestText) = Returned generated.

(** The agent once the model has answered: the formatting step under the
    top-level [catch]. *)
Lemma agent_after_model :
  IssueAgent.Agent env (Some requestText) log
  = match IssueAgent.respond env generated
            (log ++ [GenerateText (IssueAgent.request_for requestText)])%list
    with
    | (Returned reply, log') => (Returned reply, log')
    | (Threw e, log') =>
        (Returned ("An error occurred while processing your request: "
                   ++ Js.error_text e),
         (log' ++ [ConsoleError "Error in GitHub issue agent:" e])%list)
    end.
Proof.
  unfold IssueAgent.Agent. rewrite request_given. cbn [negb].
  unfold try_catch, bind, call. rewrite model_answered.
  destruct (IssueAgent.respond env generated _) as [[reply|e] log'];
    reflexivity.
Qed.

Lemma respond_without_calls (l : list event) :
  toolCalls generated = [] ->
  IssueAgent.respond env generated l = (Returned (text generated), l).
Proof. intros H. unfold IssueAgent.respond. rewrite H. reflexivity. Qed.

Lemma respond_with_last (l : list event) (earlier : list ToolResult)
    (last : ToolResult) :
  toolCalls generated <> [] ->
  toolResults generated = (earlier ++ [last])%list ->
  IssueAgent.respond env generated l
  = (Returned (if success (result last) && Js.truthy_opt (url (result last))
               then message (result last) ++ " View it at: "
                    ++ Js.interpolate (url (result last))
               else message (result last)),
     l).
Proof.
  intros Hcalls Hresults. unfold IssueAgent.respond.
  rewrite toolCalls_test. destruct (toolCalls generated); [congruence|].
  rewrite Hresults, index_last. cbn [option_map].
  destruct (success (result last) && Js.truthy_opt (url (result last)));
    reflexivity.
Qed.

Lemma respond_without_results (l : list event) :
  toolCalls generated <> [] ->
  toolResults generated = [] ->
  IssueAgent.respond env generated l
  = (Threw (Js.ErrorObj (undefined_read_message env "success")), l).
Proof.
  intros Hcalls Hresults. unfold IssueAgent.respond.
  rewrite toolCalls_test. destruct (toolCalls generated); [congruence|].
  rewrite Hresults. reflexivity.
Qed.

End Resolver.

Section ResolverProperties.

(** C7: an empty or absent request text gets the fixed prompt for input;
    the log is unchanged, so neither the model nor the tool is called. *)
Theorem agent_without_request (env : Env) (requestText : option string)
    (log : list event) :
  Js.truthy_opt requestText = false ->
  IssueAgent.Agent env requestText log
  = (Returned "Please provide details about the issue you want to create.",
     log).
Proof.
  unfold IssueAgent.Agent. destruct requestText as [s|]; simpl.
  - intros ->. reflexivity.
  - reflexivity.
Qed.

Lemma agent_without_request_witness :
  Js.truthy_opt (Some "") = false
  /\ IssueAgent.Agent Sample.env (Some "") []
     = (Returned "Please provide details about the issue you want to create.",
        []).
Proof.
  split; [reflexivity|].
  exact (agent_without_request Sample.env (Some "") [] eq_refl).
Defined.

(** C6: when the model's response has no tool call, the agent returns the
    model's text as it is. *)
Theorem agent_without_tool_calls (env : Env) (requestText : string)
    (log : list event) (generated : GenerateTextResult) :
  Js.truthy requestText = true ->
  generateText env (IssueAgent.request_for requestText) = Returned generated ->
  toolCalls generated = [] ->
  IssueAgent.Agent env (Some requestText) log
  = (Returned (text generated),
     (log ++ [GenerateText (IssueAgent.request_for requestText)])%list).
Proof.
  intros Hreq Hgen Hcalls.
  rewrite (agent_after_model env requestText log generated Hreq Hgen).
  now rewrite respond_without_calls.
Qed.

Lemma agent_without_tool_calls_witness :
  Js.truthy "Open an issue about the login bug" = true
  /\ generateText Sample.env
       (IssueAgent.request_for "Open an issue about the login bug")
     = Returned Sample.clarification
  /\ toolCalls Sample.clarification = []
  /\ fst (IssueAgent.Agent Sample.env
            (Some "Open an issue about the login bug") [])
     = Returned "Which repository should the issue go to?".
Proof.
  split; [reflexivity|]. split; [reflexivity|]. split; [reflexivity|].
  rewrite (agent_without_tool_calls Sample.env
             "Open an issue about the login bug" [] Sample.clarification
             eq_refl eq_refl eq_refl).
  reflexivity.
Defined.

(** C3 as stated fails: a successful outcome whose url is present but empty
    is answered with the message alone. *)
Lemma agent_blank_url_counterexample :
  ~ (forall (env : Env) (requestText : string) (log : list event)
            (generated : GenerateTextResult) (earlier : list ToolResult)
            (last : ToolResult) (u : string),
        Js.truthy requestText = true ->
        generateText env (IssueAgent.request_for requestText)
        = Returned generated ->
        toolCalls generated <> [] ->
        toolResults generated = (earlier ++ [last])%list ->
        success (result last) = true ->
        url (result last) = Some u ->
        fst (IssueAgent.Agent env (Some requestText) log)
        = Returned (message (result last) ++ " View it at: " ++ u)).
Proof.
  intros H.
  specialize (H (Sample.with_generated
                   (Sample.generated_with [Sample.a_result Sample.created_blank])
                   Sample.env)
                "hello" []
                (Sample.generated_with [Sample.a_result Sample.created_blank])
                [] (Sample.a_result Sample.created_blank) ""
                eq_refl eq_refl).
  assert (Hcalls : toolCalls (Sample.generated_with
                                [Sample.a_result Sample.created_blank]) <> [])
    by discriminate.
  specialize (H Hcalls eq_refl eq_refl eq_refl).
  vm_compute in H. discriminate H.
Qed.

(** C3, amended: when the last tool result is a success with a present,
    non-empty url, the agent returns the message, [" View it at: "] and the
    url. *)
Theorem agent_success_with_url (env : Env) (requestText : string)
    (log : list event) (generated : GenerateTextResult)
    (earlier : list ToolResult) (last : ToolResult) (u : string) :
  Js.truthy requestText = true ->
  generateText env (IssueAgent.request_for requestText) = Returned generated ->
  toolCalls generated <> [] ->
  toolResults generated = (earlier ++ [last])%list ->
  success (result last) = true ->
  url (result last) = Some u ->
  u <> "" ->
  fst (IssueAgent.Agent env (Some requestText) log)
  = Returned (message (result last) ++ " View it at: " ++ u).
Proof.
  intros Hreq Hgen Hcalls Hresults Hsuccess Hurl Hu.
  rewrite (agent_after_model env requestText log generated Hreq Hgen).
  rewrite (respond_with_last env generated _ earlier last Hcalls Hresults).
  rewrite Hsuccess, Hurl. destruct u; [congruence|]. reflexivity.
Qed.

Lemma agent_success_with_url_witness :
  fst (IssueAgent.Agent
         (Sample.with_generated
            (Sample.generated_with
               [Sample.a_result Sample.failed; Sample.a_result Sample.created])
            Sample.env)
         (Some "Create an issue at https://github.com/acme/widgets") [])
  = Returned "Issue created successfully in acme/widgets! View it at: https://github.com/acme/widgets/issues/42".
Proof.
  refine (agent_success_with_url
            (Sample.with_generated
               (Sample.generated_with
                  [Sample.a_result Sample.failed; Sample.a_result Sample.created])
               Sample.env)
            "Create an issue at https://github.com/acme/widgets" []
            (Sample.generated_with
               [Sample.a_result Sample.failed; Sample.a_result Sample.created])
            [Sample.a_result Sample.failed]
            (Sample.a_result Sample.created)
            "https://github.com/acme/widgets/issues/42"
            eq_refl eq_refl _ eq_refl eq_refl eq_refl _);
    discriminate.
Defined.

(** The outcome the handler returns when the issue API fails with
    [Sample.api_error]; it is the last tool result of the next lemma. *)
Lemma execute_api_error_outcome :
  fst (IssueAgent.execute (Sample.with_api_failure Sample.api_error Sample.env)
         Sample.widgets [])
  = Returned (failure_outcome Sample.api_error).
Proof. reflexivity. Qed.

(** C4 as stated fails: a failed outcome is answered with its message, and
    that message can itself contain ["View it at:"]. *)
Lemma agent_failure_text_counterexample :
  ~ (forall (env : Env) (requestText : string) (log : list event)
            (generated : GenerateTextResult) (earlier : list ToolResult)
            (last : ToolResult),
        Js.truthy requestText = true ->
        generateText env (IssueAgent.request_for requestText)
        = Returned generated ->
        toolCalls generated <> [] ->
        toolResults generated = (earlier ++ [last])%list ->
        success (result last) = false ->
        exists reply,
          fst (IssueAgent.Agent env (Some requestText) log) = Returned reply
          /\ reply = message (result last)
          /\ Js.includes "View it at:" reply = false).
Proof.
  intros H.
  pose (last := Sample.a_result (failure_outcome Sample.api_error)).
  assert (Hcalls : toolCalls (Sample.generated_with [last]) <> [])
    by discriminate.
  destruct (H (Sample.with_generated (Sample.generated_with [last]) Sample.env)
              "hello" [] (Sample.generated_with [last]) [] last
              eq_refl eq_refl Hcalls eq_refl eq_refl)
    as (reply & Hreply & -> & Hincl).
  vm_compute in Hincl. discriminate Hincl.
Qed.

(** C4, amended: when the last tool result has [success = false], the agent
    returns exactly that outcome's message and appends nothing to it; the
    reply contains ["View it at:"] only when the message itself does. *)
Theorem agent_failure_returns_message (env : Env) (requestText : string)
    (log : list event) (generated : GenerateTextResult)
    (earlier : list ToolResult) (last : ToolResult) :
  Js.truthy requestText = true ->
  generateText env (IssueAgent.request_for requestText) = Returned generated ->
  toolCalls generated <> [] ->
  toolResults generated = (earlier ++ [last])%list ->
  success (result last) = false ->
  exists reply,
    fst (IssueAgent.Agent env (Some requestText) log) = Returned reply
    /\ reply = message (result last)
    /\ Js.includes "View it at:" reply
       = Js.includes "View it at:" (message (result last)).
Proof.
  intros Hreq Hgen Hcalls Hresults Hfailed.
  rewrite (agent_after_model env requestText log generated Hreq Hgen).
  rewrite (respond_with_last env generated _ earlier last Hcalls Hresults).
  rewrite Hfailed. cbn [andb fst].
  exists (message (result last)). repeat split.
Qed.

Lemma agent_failure_returns_message_witness :
  exists reply,
    fst (IssueAgent.Agent
           (Sample.with_generated
              (Sample.generated_with [Sample.a_result Sample.failed])
              Sample.env)
           (Some "Create an issue in acme/widgets") [])
    = Returned reply
    /\ reply = "Failed to create issue: Not Found"
    /\ Js.includes "View it at:" reply = false.
Proof.
  assert (Hcalls : toolCalls (Sample.generated_with
                                [Sample.a_result Sample.failed]) <> [])
    by discriminate.
  destruct (agent_failure_returns_message
              (Sample.with_generated
                 (Sample.generated_with [Sample.a_result Sample.failed])
                 Sample.env)
              "Create an issue in acme/widgets" []
              (Sample.generated_with [Sample.a_result Sample.failed])
              [] (Sample.a_result Sample.failed)
              eq_refl eq_refl Hcalls eq_refl eq_refl)
    as (reply & Hreply & Hmessage & Hincl).
  exists reply. split; [exact Hreply|]. split; [exact Hmessage|].
  rewrite Hincl. reflexivity.
Defined.

(** With at least one tool call, the reply is decided by the last tool
    result alone. *)
Lemma respond_depends_on_last (env env' : Env)
    (generated generated' : GenerateTextResult)
    (earlier earlier' : list ToolResult) (last : ToolResult)
    (log : list event) :
  toolCalls generated <> [] ->
  toolCalls generated' <> [] ->
  toolResults generated = (earlier ++ [last])%list ->
  toolResults generated' = (earlier' ++ [last])%list ->
  IssueAgent.respond env generated log = IssueAgent.respond env' generated' log.
Proof.
  intros Hc Hc' Hr Hr'.
  rewrite (respond_with_last env generated log earlier last Hc Hr).
  rewrite (respond_with_last env' generated' log earlier' last Hc' Hr').
  reflexivity.
Qed.

(** C5: replacing the tool results before the last one, in any number and
    with any content, leaves the agent's reply unchanged. *)
Theorem agent_reply_from_last_result (env env' : Env) (requestText : string)
    (log : list event) (generated : GenerateTextResult)
    (earlier earlier' : list ToolResult) (last : ToolResult) :
  Js.truthy requestText = true ->
  generateText env (IssueAgent.request_for requestText) = Returned generated ->
  toolResults generated = (earlier ++ [last])%list ->
  generateText env' (IssueAgent.request_for requestText)
  = Returned (with_toolResults (earlier' ++ [last]) generated) ->
  fst (IssueAgent.Agent env (Some requestText) log)
  = fst (IssueAgent.Agent env' (Some requestText) log).
Proof.
  intros Hreq Hgen Hresults Hgen'.
  rewrite (agent_after_model env requestText log generated Hreq Hgen).
  rewrite (agent_after_model env' requestText log _ Hreq Hgen').
  destruct (toolCalls generated) as [|c calls] eqn:Hcalls.
  - rewrite !respond_without_calls by assumption. reflexivity.
  - rewrite (respond_depends_on_last env env' generated
               (with_toolResults (earlier' ++ [last]) generated)
               earlier earlier' last);
      [reflexivity | congruence | simpl; congruence | assumption | reflexivity].
Qed.

Lemma agent_reply_from_last_result_witness :
  fst (IssueAgent.Agent
         (Sample.with_generated
            (Sample.generated_with
               [Sample.a_result Sample.failed; Sample.a_result Sample.created])
            Sample.env)
         (Some "hello") [])
  = fst (IssueAgent.Agent
           (Sample.with_generated
              (Sample.generated_with
                 [Sample.a_result Sample.created_blank;
                  Sample.a_result Sample.created])
              Sample.env)
           (Some "hello") []).
Proof.
  exact (agent_reply_from_last_result
           (Sample.with_generated
              (Sample.generated_with
                 [Sample.a_result Sample.failed; Sample.a_result Sample.created])
              Sample.env)
           (Sample.with_generated
              (Sample.generated_with
                 [Sample.a_result Sample.created_blank;
                  Sample.a_result Sample.created])
              Sample.env)
           "hello" []
           (Sample.generated_with
              [Sample.a_result Sample.failed; Sample.a_result Sample.created])
           [Sample.a_result Sample.failed]
           [Sample.a_result Sample.created_blank]
           (Sample.a_result Sample.created)
           eq_refl eq_refl eq_refl eq_refl).
Defined.

(** C10: with a tool call but no tool result, reading [success] of the
    missing result throws; the top-level handler catches it and the agent
    returns a text that begins with the error preamble. *)
Theorem agent_without_tool_results (env : Env) (requestText : string)
    (log : list event) (generated : GenerateTextResult) :
  Js.truthy requestText = true ->
  generateText env (IssueAgent.request_for requestText) = Returned generated ->
  toolCalls generated <> [] ->
  toolResults generated = [] ->
  IssueAgent.respond env generated log
  = (Threw (Js.ErrorObj (undefined_read_message env "success")), log)
  /\ exists reply,
       fst (IssueAgent.Agent env (Some requestText) log) = Returned reply
       /\ Js.startsWith "An error occurred while processing your request:"
                        reply = true.
Proof.
  intros Hreq Hgen Hcalls Hresults.
  split; [now apply respond_without_results|].
  rewrite (agent_after_model env requestText log generated Hreq Hgen).
  rewrite (respond_without_results env generated _ Hcalls Hresults).
  eexists. split; [reflexivity|].
  exact (startsWith_append
           "An error occurred while processing your request:"
           (" " ++ undefined_read_message env "success")).
Qed.

Lemma agent_without_tool_results_witness :
  fst (IssueAgent.Agent
         (Sample.with_generated (Sample.generated_with []) Sample.env)
         (Some "hello") [])
  = Returned "An error occurred while processing your request: Cannot read properties of undefined (reading 'success')"
  /\ exists reply,
       fst (IssueAgent.Agent
              (Sample.with_generated (Sample.generated_with []) Sample.env)
              (Some "hello") [])
       = Returned reply
       /\ Js.startsWith "An error occurred while processing your request:"
                        reply = true.
Proof.
  split; [reflexivity|].
  assert (Hcalls : toolCalls (Sample.generated_with []) <> []) by discriminate.
  exact (proj2 (agent_without_tool_results
                  (Sample.with_generated (Sample.generated_with []) Sample.env)
                  "hello" [] (Sample.generated_with [])
                  eq_refl eq_refl Hcalls eq_refl)).
Defined.

End ResolverProperties.

(** ** The completion relay *)

Section Relay.

(** C8 as stated fails: an empty request text is not replaced by the
    fallback; [??] only replaces [null] and [undefined]. *)
Lemma relay_empty_text_counterexample :
  ~ (forall (env : Env) (requestText : option string) (log : list event),
        Js.truthy_opt requestText = false ->
        snd (RelayAgent.Agent env requestText log)
        = (log ++ [ChatCompletionsCreate
                     {| messages := [ {| role := "user";
                                         content := "Say this is a test" |} ];
                        model := "gpt-4o" |}])%list).
Proof.
  intros H. specialize (H Sample.env (Some "") [] eq_refl).
  vm_compute in H. discriminate H.
Qed.

(** C8, amended: the relay makes exactly one chat-completion call, with one
    user message; its content is ["Say this is a test"] when the request
    text is absent, and the request text itself, empty or not, when it is
    present. *)
Theorem relay_request_content (env : Env) (requestText : option string)
    (log : list event) :
  snd (RelayAgent.Agent env requestText log)
  = (log ++ [ChatCompletionsCreate
               {| messages := [ {| role := "user";
                                   content := match requestText with
                                              | None => "Say this is a test"
                                              | Some given => given
                                              end |} ];
                  model := "gpt-4o" |}])%list.
Proof.
  unfold RelayAgent.Agent, bind, call, ret.
  destruct (chat_completions_create env (RelayAgent.request_for requestText));
    destruct requestText; reflexivity.
Qed.

End Relay.

(** ** More facts about the JavaScript primitives *)

Section SplitFacts.

Variable sep : ascii.

Lemma concat_cons (glue x : string) (xs : list string) :
  xs <> [] ->
  String.concat glue (x :: xs) = x ++ glue ++ String.concat glue xs.
Proof. destruct xs; [congruence | reflexivity]. Qed.

(** Joining the segments with the separator gives the string back. *)
Lemma split_concat (s : string) :
  String.concat (String sep "") (Js.split sep s) = s.
Proof.
  induction s as [|c rest IH]; [reflexivity|].
  cbn [Js.split]. pose proof (split_not_nil sep rest) as Hnil.
  destruct (Ascii.eqb_spec c sep) as [->|Hne].
  - rewrite concat_cons by assumption. rewrite IH. reflexivity.
  - destruct (Js.split sep rest) as [|seg segs]; [congruence|].
    destruct segs as [|seg' segs].
    + cbn in IH |- *. now rewrite IH.
    + rewrite concat_cons in IH |- * by discriminate.
      rewrite <- IH. reflexivity.
Qed.

(** No segment contains the separator. *)
Lemma split_segment_clean (s seg : string) :
  In seg (Js.split sep s) -> Js.includes (String sep "") seg = false.
Proof.
  revert seg. induction s as [|c rest IH]; intros seg.
  - intros [<-|[]]. reflexivity.
  - cbn [Js.split]. destruct (Ascii.eqb_spec c sep) as [->|Hne].
    + intros [<-|Hin]; [reflexivity | now apply IH].
    + pose proof (split_not_nil sep rest) as Hnil.
      destruct (Js.split sep rest) as [|seg0 segs]; [congruence|].
      intros [<-|Hin].
      * rewrite includes_unfold. cbn [String.prefix].
        destruct (ascii_dec sep c) as [E|_]; [congruence|].
        apply IH. now left.
      * apply IH. now right.
Qed.

(** A string without the separator is its own single segment. *)
Lemma split_clean (s : string) :
  Js.includes (String sep "") s = false -> Js.split sep s = [s].
Proof.
  induction s as [|c rest IH]; [reflexivity|].
  rewrite includes_unfold. cbn [String.prefix Js.split].
  destruct (ascii_dec sep c) as [->|Hne].
  - destruct rest; discriminate.
  - intros H. rewrite (IH H).
    destruct (Ascii.eqb_spec c sep) as [E|_]; [congruence | reflexivity].
Qed.

(** A string that begins with the separator has an empty first segment. *)
Lemma split_leading (s : string) :
  exists segs, Js.split sep (String sep s) = "" :: segs.
Proof. cbn [Js.split]. rewrite Ascii.eqb_refl. eauto. Qed.

End SplitFacts.

Section EndsWithFacts.

Lemma endsWith_unfold (suffix s : string) :
  Js.endsWith suffix s =
  if String.eqb s suffix then true
  else match s with
       | EmptyString => false
       | String _ rest => Js.endsWith suffix rest
       end.
Proof. destruct s; reflexivity. Qed.

(** [endsWith] holds exactly of the strings that are something followed by
    the suffix. *)
Lemma endsWith_iff (suffix s : string) :
  Js.endsWith suffix s = true <-> exists pre, s = pre ++ suffix.
Proof.
  split.
  - induction s as [|c rest IH]; rewrite endsWith_unfold.
    + destruct (String.eqb_spec "" suffix) as [E|_].
      * intros _. exists "". exact E.
      * intros H; discriminate H.
    + destruct (String.eqb_spec (String c rest) suffix) as [E|_].
      * intros _. exists "". exact E.
      * intros H. destruct (IH H) as [pre ->].
        exists (String c pre). reflexivity.
  - intros [pre ->]. induction pre as [|c pre IH]; rewrite endsWith_unfold.
    + cbn [String.append]. now rewrite String.eqb_refl.
    + destruct (String.eqb (String c pre ++ suffix) suffix);
        [reflexivity | exact IH].
Qed.

End EndsWithFacts.

(** ** The tool handler: what it calls, and when *)

Section ToolHandlerCalls.

Lemma split_append_clean (sep : ascii) (a b : string) :
  Js.includes (String sep "") a = false ->
  Js.split sep (a ++ String sep b) = a :: Js.split sep b.
Proof.
  induction a as [|c a IH].
  - intros _. cbn [String.append Js.split]. now rewrite Ascii.eqb_refl.
  - rewrite includes_unfold. cbn [String.prefix String.append Js.split].
    destruct (ascii_dec sep c) as [->|Hne].
    + destruct a; discriminate.
    + intros H. rewrite (IH H).
      destruct (Ascii.eqb_spec c sep) as [E|_]; [congruence | reflexivity].
Qed.

Lemma append_empty (s : string) : s ++ "" = s.
Proof. induction s as [|c s IH]; simpl; congruence. Qed.

(** The first segment of a split, put back in front of the rest. *)
Lemma split_head_tail (sep : ascii) (s first second : string)
    (rest : list string) :
  Js.split sep s = first :: second :: rest ->
  s = first ++ String sep (String.concat (String sep "") (second :: rest)).
Proof.
  intros H. rewrite <- (split_concat sep s) at 1. rewrite H.
  rewrite concat_cons by discriminate. reflexivity.
Qed.

Lemma issue_calls_app (l1 l2 : list event) :
  issue_calls (l1 ++ l2) = issue_calls l1 + issue_calls l2.
Proof.
  induction l1 as [|ev l1 IH]; [reflexivity|].
  destruct ev; simpl; auto.
Qed.

(** The events the handler adds to the log, case by case. *)
Lemma execute_new_events (env : Env) (args : ToolArguments) (log : list event) :
  exists new,
    snd (IssueAgent.execute env args log) = (log ++ new)%list
    /\ (new = []
        \/ new = [ConsoleError "Error creating issue:" invalid]
        \/ exists tok owner repo rest,
             GITHUB_TOKEN env = Some tok /\ Js.truthy tok = true
             /\ Js.split "/" (repository args) = owner :: repo :: rest
             /\ Js.truthy owner = true /\ Js.truthy repo = true
             /\ (new = [IssuesCreate tok owner repo (title args) (body args)]
                 \/ exists e,
                      new = [IssuesCreate tok owner repo (title args) (body args);
                             ConsoleError "Error creating issue:" e])).
Proof.
  destruct (Js.truthy_opt (GITHUB_TOKEN env)) eqn:Htok.
  - destruct (GITHUB_TOKEN env) as [tok|] eqn:E; [|discriminate].
    rewrite (execute_with_token env args log tok E Htok).
    destruct (Js.split "/" (repository args)) as [|owner [|repo rest]] eqn:Hs.
    1,2: eexists; split; [reflexivity | right; left; reflexivity].
    destruct (Js.truthy owner) eqn:Ho, (Js.truthy repo) eqn:Hr; cbn [andb].
    2-4: eexists; split; [reflexivity | right; left; reflexivity].
    cbv zeta. destruct (issues_create env tok owner repo _ _) as [response|e].
    + eexists; split; [reflexivity|]. right; right.
      exists tok, owner, repo, rest. repeat split; auto.
    + eexists; split; [reflexivity|]. right; right.
      exists tok, owner, repo, rest. repeat split; eauto.
  - rewrite (execute_without_token env args log Htok).
    exists []. split; [now rewrite app_nil_r | now left].
Qed.

Lemma execute_success_inversion (env : Env) (args : ToolArguments)
    (log log' : list event) (o : ToolOutcome) :
  IssueAgent.execute env args log = (Returned o, log') ->
  success o = true ->
  exists githubToken owner repo response,
    log' = (log ++ [IssuesCreate githubToken owner repo (title args) (body args)])%list
    /\ issues_create env githubToken owner repo (title args) (body args)
       = Returned response
    /\ o = created_outcome args response.
Proof.
  destruct (Js.truthy_opt (GITHUB_TOKEN env)) eqn:Htok.
  - destruct (GITHUB_TOKEN env) as [tok|] eqn:E; [|discriminate].
    rewrite (execute_with_token env args log tok E Htok).
    destruct (Js.split "/" (repository args)) as [|owner [|repo rest]].
    1,2: intros H; injection H as <- _; discriminate.
    destruct (Js.truthy owner && Js.truthy repo).
    + cbv zeta.
      destruct (issues_create env tok owner repo (title args) (body args))
        as [response|e] eqn:Hapi.
      * intros H _. injection H as <- <-.
        exists tok, owner, repo, response. repeat split. exact Hapi.
      * intros H; injection H as <- _; discriminate.
    + intros H; injection H as <- _; discriminate.
  - rewrite (execute_without_token env args log Htok). intros H; discriminate H.
Qed.

Lemma execute_failure_inversion (env : Env) (args : ToolArguments)
    (log log' : list event) (o : ToolOutcome) :
  IssueAgent.execute env args log = (Returned o, log') ->
  success o = false ->
  exists e, o = failure_outcome e.
Proof.
  destruct (Js.truthy_opt (GITHUB_TOKEN env)) eqn:Htok.
  - destruct (GITHUB_TOKEN env) as [tok|] eqn:E; [|discriminate].
    rewrite (execute_with_token env args log tok E Htok).
    destruct (Js.split "/" (repository args)) as [|owner [|repo rest]].
    1,2: intros H _; injection H as <- _; eauto.
    destruct (Js.truthy owner && Js.truthy repo).
    + cbv zeta.
      destruct (issues_create env tok owner repo (title args) (body args))
        as [response|e].
      * intros H; injection H as <- _; discriminate.
      * intros H _; injection H as <- _; eauto.
    + intros H _; injection H as <- _; eauto.
  - rewrite (execute_without_token env args log Htok). intros H; discriminate H.
Qed.

End ToolHandlerCalls.

Section ToolHandlerExtras.

(** Without [GITHUB_TOKEN], or with an empty one, the handler throws the
    configuration error: it returns no outcome, logs nothing and calls
    nothing, whatever the arguments are. *)
Theorem execute_needs_token (env : Env) (args : ToolArguments)
    (log : list event) :
  Js.truthy_opt (GITHUB_TOKEN env) = false ->
  IssueAgent.execute env args log
  = (Threw (Js.ErrorObj "GitHub token is not configured. Please set the GITHUB_TOKEN environment variable."),
     log).
Proof. apply execute_without_token. Qed.

Lemma execute_needs_token_witness :
  Js.truthy_opt (GITHUB_TOKEN (Sample.with_token (Some "") Sample.env)) = false
  /\ fst (IssueAgent.execute (Sample.with_token (Some "") Sample.env)
            Sample.widgets [])
     = Threw (Js.ErrorObj "GitHub token is not configured. Please set the GITHUB_TOKEN environment variable.").
Proof.
  split; [reflexivity|].
  rewrite (execute_needs_token (Sample.with_token (Some "") Sample.env)
             Sample.widgets [] eq_refl).
  reflexivity.
Defined.

(** With a token, a repository the handler's test rejects gives the
    "Invalid repository format" failure; the error is logged once with
    [console.error] and the issue API is not called. *)
Theorem execute_rejects_without_call (env : Env) (args : ToolArguments)
    (log : list event) :
  Js.truthy_opt (GITHUB_TOKEN env) = true ->
  handler_accepts (repository args) = false ->
  IssueAgent.execute env args log
  = (Returned
       {| success := false;
          url := None;
          message := "Failed to create issue: Invalid repository format. Please use the format: owner/repo";
          error := Some "Invalid repository format. Please use the format: owner/repo" |},
     (log ++ [ConsoleError "Error creating issue:"
                (Js.ErrorObj "Invalid repository format. Please use the format: owner/repo")])%list).
Proof.
  intros Htok Hrej.
  destruct (GITHUB_TOKEN env) as [tok|] eqn:E; [|discriminate].
  rewrite (execute_with_token env args log tok E Htok).
  unfold handler_accepts in Hrej.
  destruct (Js.split "/" (repository args)) as [|owner [|repo rest]];
    [reflexivity | reflexivity |].
  rewrite Hrej. reflexivity.
Qed.

Lemma execute_rejects_without_call_witness :
  handler_accepts "acme/" = false
  /\ issue_calls
       (snd (IssueAgent.execute Sample.env
               {| repository := "acme/"; title := "t"; body := "b" |} []))
     = 0.
Proof.
  split; [reflexivity|].
  rewrite (execute_rejects_without_call Sample.env
             {| repository := "acme/"; title := "t"; body := "b" |} []
             eq_refl eq_refl).
  reflexivity.
Defined.

(** Which strings the test rejects: those without a ['/'], those that
    begin with ['/'], and those whose first ['/'] is the last character or
    is followed by another ['/']. *)
Lemma handler_rejects_iff (repository : string) :
  handler_accepts repository = false <->
  (Js.includes "/" repository = false
   \/ Js.startsWith "/" repository = true
   \/ exists owner tail,
        repository = owner ++ "/" ++ tail
        /\ Js.includes "/" owner = false
        /\ (tail = "" \/ Js.startsWith "/" tail = true)).
Proof.
  unfold handler_accepts. split.
  - destruct (Js.split "/" repository) as [|owner [|repo rest]] eqn:Hs.
    + destruct (split_not_nil _ _ Hs).
    + intros _. left.
      assert (Hin : In owner (Js.split "/" repository)) by (rewrite Hs; now left).
      pose proof (split_concat "/" repository) as Hc. rewrite Hs in Hc.
      cbn in Hc. subst owner.
      exact (split_segment_clean "/" repository repository Hin).
    + intros Hrej. pose proof (split_head_tail "/" _ _ _ _ Hs) as Hrepo.
      destruct owner as [|c owner].
      * right; left. rewrite Hrepo. apply prefix_iff_append.
        eexists. reflexivity.
      * right; right. cbn [Js.truthy andb] in Hrej.
        destruct repo; [|discriminate].
        exists (String c owner), (String.concat "/" ("" :: rest)).
        split; [exact Hrepo|]. split.
        -- apply (split_segment_clean "/" repository). rewrite Hs. now left.
        -- destruct rest as [|r rest]; [now left | right].
           apply prefix_iff_append. eexists. reflexivity.
  - intros [Hclean|[Hlead|(owner & tail & -> & Hclean & Htail)]].
    + now rewrite (split_clean "/" repository Hclean).
    + destruct repository as [|c r]; [reflexivity|].
      unfold Js.startsWith in Hlead. cbn [String.prefix] in Hlead.
      destruct (ascii_dec "/" c) as [<-|]; [|discriminate].
      destruct (split_leading "/" r) as [segs ->].
      destruct segs; reflexivity.
    + change (owner ++ "/" ++ tail) with (owner ++ String "/" tail).
      rewrite (split_append_clean "/" owner tail Hclean).
      destruct Htail as [->|Hlead].
      * cbn. now rewrite andb_false_r.
      * destruct tail as [|c r]; [discriminate|].
        unfold Js.startsWith in Hlead. cbn [String.prefix] in Hlead.
        destruct (ascii_dec "/" c) as [<-|]; [|discriminate].
        destruct (split_leading "/" r) as [segs ->].
        cbn. now rewrite andb_false_r.
Qed.

(** With a token, the issue API is left uncalled for exactly these
    strings: no ['/'] at all, a leading ['/'], or nothing, or another
    ['/'], right after the first ['/']. *)
Theorem execute_skips_api_iff (env : Env) (args : ToolArguments) :
  Js.truthy_opt (GITHUB_TOKEN env) = true ->
  issue_calls (snd (IssueAgent.execute env args [])) = 0 <->
  (Js.includes "/" (repository args) = false
   \/ Js.startsWith "/" (repository args) = true
   \/ exists owner tail,
        repository args = owner ++ "/" ++ tail
        /\ Js.includes "/" owner = false
        /\ (tail = "" \/ Js.startsWith "/" tail = true)).
Proof.
  intros Htok. rewrite <- handler_rejects_iff.
  destruct (handler_accepts (repository args)) eqn:Hacc.
  - split; [|discriminate].
    apply handler_accepts_iff in Hacc as (owner & repo & rest & Hs & Ho & Hr).
    destruct (GITHUB_TOKEN env) as [tok|] eqn:E; [|discriminate].
    destruct (execute_accepted_calls_api env args [] tok owner repo rest
                E Htok Hs Ho Hr) as [log' ->].
    discriminate.
  - split; [reflexivity|]. intros _.
    destruct (GITHUB_TOKEN env) as [tok|] eqn:E; [|discriminate].
    rewrite (execute_with_token env args [] tok E Htok).
    unfold handler_accepts in Hacc.
    destruct (Js.split "/" (repository args)) as [|owner [|repo rest]];
      [reflexivity | reflexivity |].
    rewrite Hacc. reflexivity.
Qed.

Lemma execute_skips_api_iff_witness :
  Js.includes "/" (repository {| repository := "widgets"; title := "t"; body := "b" |})
  = false
  /\ issue_calls
       (snd (IssueAgent.execute Sample.env
               {| repository := "widgets"; title := "t"; body := "b" |} []))
     = 0.
Proof.
  split; [reflexivity|].
  apply (proj2 (execute_skips_api_iff Sample.env
                  {| repository := "widgets"; title := "t"; body := "b" |}
                  eq_refl)).
  left. reflexivity.
Defined.

(** A repository of the form owner/repo, both parts non-empty and free of
    ['/'], is taken apart as written: the issue API is called once, with
    the token, that owner, that repo and the title and body unchanged; the
    outcome is the success with the response's url, or the failure with
    the text of what the API threw. *)
Theorem execute_owner_repo (env : Env) (args : ToolArguments)
    (log : list event) (githubToken owner repo : string) :
  GITHUB_TOKEN env = Some githubToken ->
  githubToken <> "" ->
  repository args = owner ++ "/" ++ repo ->
  owner <> "" -> repo <> "" ->
  Js.includes "/" owner = false ->
  Js.includes "/" repo = false ->
  IssueAgent.execute env args log
  = match issues_create env githubToken owner repo (title args) (body args) with
    | Returned response =>
        (Returned {| success := true;
                     url := Some (html_url response);
                     message := "Issue created successfully in "
                                ++ repository args ++ "!";
                     error := None |},
         (log ++ [IssuesCreate githubToken owner repo (title args) (body args)])%list)
    | Threw e =>
        (Returned {| success := false;
                     url := None;
                     message := "Failed to create issue: " ++ Js.error_text e;
                     error := Some (Js.error_text e) |},
         (log ++ [IssuesCreate githubToken owner repo (title args) (body args);
                  ConsoleError "Error creating issue:" e])%list)
    end.
Proof.
  intros Htok Hne Hrepo Ho Hr Hco Hcr.
  assert (Htruthy : Js.truthy githubToken = true)
    by (destruct githubToken; [congruence | reflexivity]).
  rewrite (execute_with_token env args log githubToken Htok Htruthy).
  rewrite Hrepo at 1.
  change (owner ++ "/" ++ repo) with (owner ++ String "/" repo) at 1.
  rewrite (split_append_clean "/" owner repo Hco), (split_clean "/" repo Hcr).
  destruct owner; [congruence|]. destruct repo; [congruence|].
  cbn [Js.truthy andb]. cbv zeta.
  destruct (issues_create env githubToken _ _ _ _); reflexivity.
Qed.

Lemma execute_owner_repo_witness :
  IssueAgent.execute Sample.env Sample.widgets []
  = (Returned {| success := true;
                 url := Some "https://github.com/acme/widgets/issues/42";
                 message := "Issue created successfully in acme/widgets!";
                 error := None |},
     [IssuesCreate "ghp_example" "acme" "widgets" "Crash on startup"
                   "A null pointer on launch."]).
Proof.
  refine (execute_owner_repo Sample.env Sample.widgets [] "ghp_example"
            "acme" "widgets" eq_refl _ eq_refl _ _ eq_refl eq_refl);
    discriminate.
Defined.

(** Every call to the issue API that the handler makes carries the
    configured, non-empty token, an owner and a repo that are non-empty and
    free of ['/'] and with which the repository string begins, and the
    title and body it was given. *)
Theorem execute_calls_well_formed (env : Env) (args : ToolArguments)
    (log new : list event) (auth owner repo title' body' : string) :
  snd (IssueAgent.execute env args log) = (log ++ new)%list ->
  In (IssuesCreate auth owner repo title' body') new ->
  GITHUB_TOKEN env = Some auth /\ auth <> ""
  /\ owner <> "" /\ repo <> ""
  /\ Js.includes "/" owner = false /\ Js.includes "/" repo = false
  /\ Js.startsWith (owner ++ "/" ++ repo) (repository args) = true
  /\ title' = title args /\ body' = body args.
Proof.
  intros Hlog Hin.
  destruct (execute_new_events env args log) as (new' & Hlog' & Hcases).
  rewrite Hlog in Hlog'. apply app_inv_head in Hlog'. subst new'.
  destruct Hcases as [->|[->|(tok & o & r & rest & Htok & Htruthy & Hs & Ho & Hr & Hnew)]].
  - destruct Hin.
  - destruct Hin as [Hin|[]]. discriminate Hin.
  - assert (Hev : IssuesCreate auth owner repo title' body'
                  = IssuesCreate tok o r (title args) (body args)).
    { destruct Hnew as [->|[e ->]].
      - destruct Hin as [Hin|[]]. now symmetry.
      - destruct Hin as [Hin|[Hin|[]]]; [now symmetry | discriminate Hin]. }
    injection Hev as -> -> -> -> ->.
    repeat match goal with |- _ /\ _ => split end; try reflexivity.
    + exact Htok.
    + intros ->. discriminate Htruthy.
    + intros ->. discriminate Ho.
    + intros ->. discriminate Hr.
    + apply (split_segment_clean "/" (repository args)). rewrite Hs. now left.
    + apply (split_segment_clean "/" (repository args)). rewrite Hs.
      right; now left.
    + apply prefix_iff_append.
      pose proof (split_head_tail "/" _ _ _ _ Hs) as Hrepo.
      destruct rest as [|extra rest].
      * exists "". rewrite Hrepo at 1. cbn [String.concat].
        change (String "/" r) with ("/" ++ r).
        now rewrite append_empty.
      * exists ("/" ++ String.concat "/" (extra :: rest)).
        rewrite Hrepo at 1. rewrite concat_cons by discriminate.
        change (String "/" (r ++ "/" ++ String.concat "/" (extra :: rest)))
          with ("/" ++ (r ++ "/" ++ String.concat "/" (extra :: rest))).
        now rewrite !append_assoc.
Qed.

Lemma execute_calls_well_formed_witness :
  Js.startsWith ("a" ++ "/" ++ "b") (repository Sample.nested) = true.
Proof.
  refine (proj1 (proj2 (proj2 (proj2 (proj2 (proj2 (proj2
            (execute_calls_well_formed Sample.env Sample.nested []
               [IssuesCreate "ghp_example" "a" "b" "t" "b"]
               "ghp_example" "a" "b" "t" "b" eq_refl _)))))))).
  left. reflexivity.
Defined.

(** The handler reports success only after the issue API has answered:
    an outcome with [success = true] means exactly one call was added to
    the log, that call returned, the outcome's url is the returned
    [html_url], and the message names the repository string as it was
    given. *)
Theorem execute_success_provenance (env : Env) (args : ToolArguments)
    (log log' : list event) (o : ToolOutcome) :
  IssueAgent.execute env args log = (Returned o, log') ->
  success o = true ->
  exists githubToken owner repo response,
    log' = (log ++ [IssuesCreate githubToken owner repo (title args) (body args)])%list
    /\ issues_create env githubToken owner repo (title args) (body args)
       = Returned response
    /\ url o = Some (html_url response)
    /\ message o = "Issue created successfully in " ++ repository args ++ "!"
    /\ error o = None.
Proof.
  intros Hrun Hsuccess.
  destruct (execute_success_inversion env args log log' o Hrun Hsuccess)
    as (tok & owner & repo & response & Hlog & Hapi & ->).
  exists tok, owner, repo, response. repeat split; assumption.
Qed.

Lemma execute_success_provenance_witness :
  exists githubToken owner repo response,
    issues_create Sample.env githubToken owner repo
      (title Sample.nested) (body Sample.nested) = Returned response
    /\ html_url response = "https://github.com/a/b/issues/42".
Proof.
  destruct (execute_success_provenance Sample.env Sample.nested []
              [IssuesCreate "ghp_example" "a" "b" "t" "b"]
              {| success := true;
                 url := Some "https://github.com/a/b/issues/42";
                 message := "Issue created successfully in a/b/c!";
                 error := None |}
              eq_refl eq_refl)
    as (tok & owner & repo & response & _ & Hapi & Hurl & _).
  exists tok, owner, repo, response. split; [exact Hapi|].
  injection Hurl as Hurl. now symmetry.
Defined.

(** The handler never retries and never calls twice: whatever the world
    and the arguments, it keeps the log it was given and adds at most two
    entries to it, of which at most one is a call to the issue API. *)
Theorem execute_at_most_one_call (env : Env) (args : ToolArguments)
    (log : list event) :
  exists new,
    snd (IssueAgent.execute env args log) = (log ++ new)%list
    /\ issue_calls new <= 1
    /\ List.length new <= 2.
Proof.
  destruct (execute_new_events env args log) as (new & Hlog & Hcases).
  exists new. split; [exact Hlog|].
  destruct Hcases as [->|[->|(tok & o & r & rest & _ & _ & _ & _ & _ & Hnew)]].
  - simpl; lia.
  - simpl; lia.
  - destruct Hnew as [->|[e ->]]; simpl; lia.
Qed.

End ToolHandlerExtras.

(** ** The resolver: failures, calls and the handler's outcome *)

Section ResolverRuns.

Variable env : Env.
Variable requestText : string.
Variable log : list event.

Hypothesis request_given : Js.truthy requestText = true.

(** The formatting step makes no outside call. *)
Lemma respond_keeps_log (generated : GenerateTextResult) (l : list event) :
  snd (IssueAgent.respond env generated l) = l.
Proof.
  unfold IssueAgent.respond.
  destruct (Z.of_nat (List.length (toolCalls generated)) =? 0)%Z;
    [reflexivity|].
  destruct (option_map result _) as [issueResult|]; [|reflexivity].
  destruct (success issueResult && Js.truthy_opt (url issueResult));
    reflexivity.
Qed.

(** The agent when the model invocation itself throws. *)
Lemma agent_after_model_threw (e : Js.thrown) :
  generateText env (IssueAgent.request_for requestText) = Threw e ->
  IssueAgent.Agent env (Some requestText) log
  = (Returned ("An error occurred while processing your request: "
               ++ Js.error_text e),
     (log ++ [GenerateText (IssueAgent.request_for requestText);
              ConsoleError "Error in GitHub issue agent:" e])%list).
Proof.
  intros Hgen. unfold IssueAgent.Agent. rewrite request_given. cbn [negb].
  unfold try_catch, bind, call, ret, IssueAgent.console_error, emit.
  rewrite Hgen. now rewrite <- app_assoc.
Qed.

(** Every run of the agent on a request: a reply, and a log that grew by
    the model invocation and at most one [console.error]. *)
Lemma agent_run :
  exists reply tail,
    IssueAgent.Agent env (Some requestText) log
    = (Returned reply,
       (log ++ GenerateText (IssueAgent.request_for requestText) :: tail)%list)
    /\ only_console_errors tail = true
    /\ List.length tail <= 1.
Proof.
  destruct (generateText env (IssueAgent.request_for requestText))
    as [generated|e] eqn:Hgen.
  - rewrite (agent_after_model env requestText log generated request_given Hgen).
    pose proof (respond_keeps_log generated
                  (log ++ [GenerateText (IssueAgent.request_for requestText)]))
      as Hkeep.
    destruct (IssueAgent.respond env generated _) as [[reply|e] log'];
      cbn [snd] in Hkeep; subst log'.
    + exists reply, []. repeat split; auto.
    + eexists; exists [ConsoleError "Error in GitHub issue agent:" e].
      rewrite <- app_assoc. repeat split; auto.
  - rewrite (agent_after_model_threw e Hgen).
    eexists; exists [ConsoleError "Error in GitHub issue agent:" e].
    repeat split; auto.
Qed.

End ResolverRuns.

Section ResolverExtras.


(** When the model invocation throws, the agent answers with the error
    preamble followed by the error's text, after logging the error once;
    it does not call the model again. *)
Theorem agent_model_failure (env : Env) (requestText : string)
    (log : list event) (e : Js.thrown) :
  Js.truthy requestText = true ->
  generateText env (IssueAgent.request_for requestText) = Threw e ->
  IssueAgent.Agent env (Some requestText) log
  = (Returned ("An error occurred while processing your request: "
               ++ Js.error_text e),
     (log ++ [GenerateText (IssueAgent.request_for requestText);
              ConsoleError "Error in GitHub issue agent:" e])%list).
Proof. intros Hreq Hgen. now apply agent_after_model_threw. Qed.

Lemma agent_model_failure_witness :
  fst (IssueAgent.Agent
         (Sample.with_model_failure (Js.NonError "quota exceeded") Sample.env)
         (Some "hello") [])
  = Returned "An error occurred while processing your request: quota exceeded".
Proof.
  rewrite (agent_model_failure
             (Sample.with_model_failure (Js.NonError "quota exceeded") Sample.env)
             "hello" [] (Js.NonError "quota exceeded") eq_refl eq_refl).
  reflexivity.
Defined.

(** For a non-empty request the agent invokes the model exactly once, with
    the request text as the prompt, the model [gemini-2.0-flash], the one
    tool [createGitHubIssue] and at most 2 steps; whatever the model does,
    the only other thing the agent itself adds to the log is at most one
    [console.error]. *)
Theorem agent_calls_model_once (env : Env) (requestText : string)
    (log : list event) :
  Js.truthy requestText = true ->
  exists tail,
    snd (IssueAgent.Agent env (Some requestText) log)
    = (log ++ GenerateText {| gt_model := "gemini-2.0-flash";
                              gt_system := IssueAgent.system_prompt;
                              gt_prompt := requestText;
                              gt_tools := ["createGitHubIssue"];
                              gt_maxSteps := 2 |} :: tail)%list
    /\ only_console_errors tail = true
    /\ List.length tail <= 1.
Proof.
  intros Hreq.
  destruct (agent_run env requestText log Hreq)
    as (reply & tail & Hrun & Honly & Hlen).
  exists tail. rewrite Hrun. repeat split; assumption.
Qed.

Lemma agent_calls_model_once_witness :
  exists tail,
    snd (IssueAgent.Agent
           (Sample.with_generated (Sample.generated_with []) Sample.env)
           (Some "hello") [])
    = GenerateText (IssueAgent.request_for "hello") :: tail
    /\ List.length tail <= 1.
Proof.
  destruct (agent_calls_model_once
              (Sample.with_generated (Sample.generated_with []) Sample.env)
              "hello" [] eq_refl) as (tail & Hlog & _ & Hlen).
  exists tail. split; [exact Hlog | exact Hlen].
Defined.

(** A last tool result without a usable url, absent or empty, is answered
    with its message alone, also when it reports success. *)
Theorem agent_reply_without_link (env : Env) (requestText : string)
    (log : list event) (generated : GenerateTextResult)
    (earlier : list ToolResult) (last : ToolResult) :
  Js.truthy requestText = true ->
  generateText env (IssueAgent.request_for requestText) = Returned generated ->
  toolCalls generated <> [] ->
  toolResults generated = (earlier ++ [last])%list ->
  Js.truthy_opt (url (result last)) = false ->
  fst (IssueAgent.Agent env (Some requestText) log)
  = Returned (message (result last)).
Proof.
  intros Hreq Hgen Hcalls Hresults Hurl.
  rewrite (agent_after_model env requestText log generated Hreq Hgen).
  rewrite (respond_with_last env generated _ earlier last Hcalls Hresults).
  rewrite Hurl, andb_false_r. reflexivity.
Qed.

Lemma agent_reply_without_link_witness :
  fst (IssueAgent.Agent
         (Sample.with_generated
            (Sample.generated_with [Sample.a_result Sample.created_unlinked])
            Sample.env)
         (Some "hello") [])
  = Returned "Issue created successfully in acme/widgets!".
Proof.
  refine (agent_reply_without_link
            (Sample.with_generated
               (Sample.generated_with [Sample.a_result Sample.created_unlinked])
               Sample.env)
            "hello" []
            (Sample.generated_with [Sample.a_result Sample.created_unlinked])
            [] (Sample.a_result Sample.created_unlinked)
            eq_refl eq_refl _ eq_refl eq_refl).
  discriminate.
Defined.

(** Once there is a tool call and a tool result, nothing but the last tool
    result enters the reply: not the model's text, not the tool calls, not
    the earlier results, not the rest of the world. *)
Theorem agent_reply_ignores_the_rest (env env' : Env)
    (requestText requestText' : string) (log log' : list event)
    (generated generated' : GenerateTextResult)
    (earlier earlier' : list ToolResult) (last : ToolResult) :
  Js.truthy requestText = true ->
  Js.truthy requestText' = true ->
  generateText env (IssueAgent.request_for requestText) = Returned generated ->
  generateText env' (IssueAgent.request_for requestText') = Returned generated' ->
  toolCalls generated <> [] ->
  toolCalls generated' <> [] ->
  toolResults generated = (earlier ++ [last])%list ->
  toolResults generated' = (earlier' ++ [last])%list ->
  fst (IssueAgent.Agent env (Some requestText) log)
  = fst (IssueAgent.Agent env' (Some requestText') log').
Proof.
  intros Hreq Hreq' Hgen Hgen' Hcalls Hcalls' Hresults Hresults'.
  rewrite (agent_after_model env requestText log generated Hreq Hgen).
  rewrite (agent_after_model env' requestText' log' generated' Hreq' Hgen').
  rewrite (respond_with_last env generated _ earlier last Hcalls Hresults).
  rewrite (respond_with_last env' generated' _ earlier' last Hcalls' Hresults').
  reflexivity.
Qed.

Lemma agent_reply_ignores_the_rest_witness :
  fst (IssueAgent.Agent
         (Sample.with_generated
            (Sample.generated_with [Sample.a_result Sample.failed])
            Sample.env)
         (Some "hello") [])
  = fst (IssueAgent.Agent
           (Sample.with_generated
              {| text := "Sorry."; toolCalls := [Sample.a_call; Sample.a_call];
                 toolResults := [Sample.a_result Sample.created;
                                 Sample.a_result Sample.failed] |}
              (Sample.with_token None Sample.env))
           (Some "again") []).
Proof.
  refine (agent_reply_ignores_the_rest
            (Sample.with_generated
               (Sample.generated_with [Sample.a_result Sample.failed])
               Sample.env)
            (Sample.with_generated
               {| text := "Sorry."; toolCalls := [Sample.a_call; Sample.a_call];
                  toolResults := [Sample.a_result Sample.created;
                                  Sample.a_result Sample.failed] |}
               (Sample.with_token None Sample.env))
            "hello" "again" [] []
            (Sample.generated_with [Sample.a_result Sample.failed])
            {| text := "Sorry."; toolCalls := [Sample.a_call; Sample.a_call];
               toolResults := [Sample.a_result Sample.created;
                               Sample.a_result Sample.failed] |}
            [] [Sample.a_result Sample.created] (Sample.a_result Sample.failed)
            eq_refl eq_refl eq_refl eq_refl _ _ eq_refl eq_refl);
    discriminate.
Defined.

End ResolverExtras.

(** ** The handler's outcome as the resolver's last tool result *)

Section HandlerToResolver.

Variable env : Env.
Variable requestText : string.
Variable log : list event.
Variable generated : GenerateTextResult.
Variable earlier : list ToolResult.
Variable last : ToolResult.
Variable args : ToolArguments.
Variable handler_log handler_log' : list event.

Hypothesis request_given : Js.truthy requestText = true.
Hypothesis model_answered :
  generateText env (IssueAgent.request_for requestText) = Returned generated.
Hypothesis tool_called : toolCalls generated <> [].
Hypothesis last_result : toolResults generated = (earlier ++ [last])%list.
Hypothesis handler_returned :
  IssueAgent.execute env args handler_log = (Returned (result last), handler_log').


(** When the last tool result is a failure the handler returned, the
    reply is ["Failed to create issue: "] followed by the error text the
    outcome carries. *)
Theorem failed_issue_reported :
  success (result last) = false ->
  exists m,
    error (result last) = Some m
    /\ fst (IssueAgent.Agent env (Some requestText) log)
       = Returned ("Failed to create issue: " ++ m).
Proof.
  intros Hfailed.
  destruct (execute_failure_inversion env args handler_log handler_log'
              (result last) handler_returned Hfailed) as [e Hout].
  exists (Js.error_text e). rewrite Hout. split; [reflexivity|].
  rewrite (agent_after_model env requestText log generated
             request_given model_answered).
  rewrite (respond_with_last env generated _ earlier last tool_called last_result).
  rewrite Hout. reflexivity.
Qed.

End HandlerToResolver.

Section HandlerToResolverWitnesses.


Lemma failed_issue_reported_witness :
  exists m,
    error (failure_outcome invalid) = Some m
    /\ fst (IssueAgent.Agent
              (Sample.with_generated
                 (Sample.generated_with
                    [Sample.a_result (failure_outcome invalid)])
                 Sample.env)
              (Some "Create an issue in widgets") [])
       = Returned ("Failed to create issue: " ++ m).
Proof.
  refine (failed_issue_reported
            (Sample.with_generated
               (Sample.generated_with
                  [Sample.a_result (failure_outcome invalid)])
               Sample.env)
            "Create an issue in widgets" []
            (Sample.generated_with [Sample.a_result (failure_outcome invalid)])
            [] (Sample.a_result (failure_outcome invalid))
            {| repository := "widgets"; title := "t"; body := "b" |}
            [] [ConsoleError "Error creating issue:" invalid]
            eq_refl eq_refl _ eq_refl eq_refl eq_refl).
  discriminate.
Defined.

End HandlerToResolverWitnesses.

(** ** The completion relay: its reply *)

Section RelayExtras.

(** The relay's reply is the content of the first choice, whatever it is
    (the empty string included); it is ["Something went wrong"] when there
    is no choice or the first choice has no content, and later choices are
    never looked at. *)
Theorem relay_reply (env : Env) (requestText : option string)
    (log : list event) (completion : ChatCompletion) :
  chat_completions_create env (RelayAgent.request_for requestText)
  = Returned completion ->
  fst (RelayAgent.Agent env requestText log)
  = Returned match choices completion with
             | [] => "Something went wrong"
             | first :: _ =>
                 match msg_content (choice_message first) with
                 | Some given => given
                 | None => "Something went wrong"
                 end
             end.
Proof.
  intros Hcall. unfold RelayAgent.Agent, bind, call, ret. rewrite Hcall.
  destruct (choices completion) as [|first others]; [reflexivity|].
  cbn. destruct (msg_content (choice_message first)); reflexivity.
Qed.

Lemma relay_reply_witness :
  fst (RelayAgent.Agent
         (Sample.with_completion
            (Returned {| choices :=
                           [ {| choice_message := {| msg_content := None |} |};
                             {| choice_message :=
                                  {| msg_content := Some "second" |} |} ] |})
            Sample.env)
         (Some "hi") [])
  = Returned "Something went wrong".
Proof.
  rewrite (relay_reply
             (Sample.with_completion
                (Returned {| choices :=
                               [ {| choice_message := {| msg_content := None |} |};
                                 {| choice_message :=
                                      {| msg_content := Some "second" |} |} ] |})
                Sample.env)
             (Some "hi") [] _ eq_refl).
  reflexivity.
Defined.

(** The relay has no error handling of its own: when the chat-completion
    call throws, the relay throws the same value, after that one call and
    without any reply. *)
Theorem relay_failure_propagates (env : Env) (requestText : option string)
    (log : list event) (e : Js.thrown) :
  chat_completions_create env (RelayAgent.request_for requestText) = Threw e ->
  RelayAgent.Agent env requestText log
  = (Threw e, (log ++ [ChatCompletionsCreate (RelayAgent.request_for requestText)])%list).
Proof.
  intros Hcall. unfold RelayAgent.Agent, bind, call. rewrite Hcall. reflexivity.
Qed.

Lemma relay_failure_propagates_witness :
  fst (RelayAgent.Agent
         (Sample.with_completion (Threw (Js.ErrorObj "401")) Sample.env)
         None [])
  = Threw (Js.ErrorObj "401").
Proof.
  rewrite (relay_failure_propagates
             (Sample.with_completion (Threw (Js.ErrorObj "401")) Sample.env)
             None [] (Js.ErrorObj "401") eq_refl).
  reflexivity.
Defined.

End RelayExtras.

(** ** The start-up script *)

Section StartUp.

Variable p : Bootstrap.Process.

(** The run of the script from an empty output, case by case. *)
Lemma main_run :
  Bootstrap.main p []
  = if keys_set p
    then (match Bootstrap.runner p true (Bootstrap.dirname p) with
          | Some _ => Bootstrap.Exited 1
          | None => Bootstrap.Continue tt
          end,
          (if Js.truthy_opt (Bootstrap.AGENTUITY_URL p) then []
           else [Bootstrap.WarnLine Bootstrap.outside_message;
                 Bootstrap.WarnLine (if Bootstrap.isBun p
                                     then Bootstrap.bun_message
                                     else Bootstrap.npm_message)])
          ++ Bootstrap.RunnerStarted true (Bootstrap.dirname p) :: rejection_report p)%list
    else (Bootstrap.Exited 1,
          Bootstrap.ErrorLine (Some Bootstrap.missing_key_message)
          :: (if Js.endsWith "node" (Js.or_else (Bootstrap.underscore p) "")
              then [Bootstrap.ErrorLine (Some Bootstrap.rerun_message)]
              else [])).
Proof.
  unfold Bootstrap.main, keys_set, rejection_report, Bootstrap.on_rejection,
    Bootstrap.andThen, Bootstrap.say, Bootstrap.exit, Bootstrap.done.
  destruct (Js.truthy_opt (Bootstrap.AGENTUITY_API_KEY p)),
           (Js.truthy_opt (Bootstrap.AGENTUITY_SDK_KEY p)); cbn [negb andb orb].
  4: destruct (Js.endsWith "node" _); reflexivity.
  all: destruct (Js.truthy_opt (Bootstrap.AGENTUITY_URL p)); cbn [negb];
    destruct (Bootstrap.isBun p);
    destruct (Bootstrap.runner p true (Bootstrap.dirname p)) as [[m st|r]|];
    reflexivity.
Qed.

End StartUp.

Section StartUpExtras.

Variable p : Bootstrap.Process.

(** The script ends the process, always with code 1, exactly when neither
    key is set or the runner's promise is rejected; otherwise it runs to
    its end. *)
Theorem main_exit_code :
  (fst (Bootstrap.main p []) = Bootstrap.Exited 1
   \/ fst (Bootstrap.main p []) = Bootstrap.Continue tt)
  /\ (fst (Bootstrap.main p []) = Bootstrap.Exited 1 <->
      (keys_set p = false
       \/ exists err, Bootstrap.runner p true (Bootstrap.dirname p) = Some err)).
Proof.
  rewrite main_run. destruct (keys_set p); cbn [fst].
  - destruct (Bootstrap.runner p true (Bootstrap.dirname p)) as [err|].
    + split; [now left|]. split; eauto.
    + split; [now right|]. split; [discriminate|].
      intros [H|[err H]]; discriminate H.
  - split; [now left|]. split; auto.
Qed.

(** The runner is started once when a key is set and not at all when none
    is; it is always started with [true] and the script's directory. *)
Theorem main_starts_runner :
  runner_starts (snd (Bootstrap.main p [])) = (if keys_set p then 1 else 0)
  /\ forall flag dir,
       In (Bootstrap.RunnerStarted flag dir) (snd (Bootstrap.main p [])) ->
       flag = true /\ dir = Bootstrap.dirname p.
Proof.
  rewrite main_run. unfold rejection_report.
  destruct (keys_set p); cbn [snd].
  - destruct (Js.truthy_opt (Bootstrap.AGENTUITY_URL p));
      destruct (Bootstrap.runner p true (Bootstrap.dirname p)) as [[m st|r]|];
      (split; [reflexivity|]); intros flag dir Hin; cbn in Hin;
      repeat (destruct Hin as [Hin|Hin]; [try discriminate Hin|]);
      try (injection Hin as <- <-; auto); try contradiction.
  - split; [destruct (Js.endsWith "node" _); reflexivity|].
    intros flag dir Hin. destruct (Js.endsWith "node" _); cbn in Hin;
      repeat (destruct Hin as [Hin|Hin]; [discriminate Hin|]); contradiction.
Qed.


(** Without a key the script prints the missing-key error, then the hint
    to re-run with [node --env-file] exactly when [process.env._] ends with
    ["node"], and exits with code 1 before anything else happens. *)
Theorem main_without_keys :
  keys_set p = false ->
  exists hint,
    Bootstrap.main p []
    = (Bootstrap.Exited 1,
       Bootstrap.ErrorLine (Some Bootstrap.missing_key_message) :: hint)
    /\ ((hint = [Bootstrap.ErrorLine (Some Bootstrap.rerun_message)]
         /\ exists pre, Bootstrap.underscore p = Some (pre ++ "node"))
        \/ (hint = []
            /\ ~ exists pre, Bootstrap.underscore p = Some (pre ++ "node"))).
Proof.
  intros Hkeys. rewrite main_run, Hkeys.
  destruct (Js.endsWith "node" (Js.or_else (Bootstrap.underscore p) ""))
    eqn:Hends; eexists; (split; [reflexivity|]).
  - left. split; [reflexivity|].
    apply endsWith_iff in Hends as [pre Hpre].
    unfold Js.or_else in Hpre.
    destruct (Bootstrap.underscore p) as [[|c s]|]; cbn in Hpre.
    + destruct pre; discriminate Hpre.
    + exists pre. now rewrite Hpre.
    + destruct pre; discriminate Hpre.
  - right. split; [reflexivity|]. intros [pre Hpre].
    rewrite Hpre in Hends. unfold Js.or_else in Hends.
    assert (Htruthy : Js.truthy (pre ++ "node") = true)
      by (destruct pre; reflexivity).
    rewrite Htruthy in Hends.
    rewrite (proj2 (endsWith_iff "node" (pre ++ "node"))) in Hends by eauto.
    discriminate Hends.
Qed.

(** With a key set, the only error lines are the report of a rejected
    runner: the message and the stack of an [Error], or the value itself;
    and the whole output is the warnings, then the start of the runner,
    then that report. *)
Theorem main_with_key :
  keys_set p = true ->
  error_lines (snd (Bootstrap.main p []))
  = match Bootstrap.runner p true (Bootstrap.dirname p) with
    | Some (Bootstrap.RejectedError message stack) => [Some message; stack]
    | Some (Bootstrap.RejectedOther rendered) => [Some rendered]
    | None => []
    end
  /\ snd (Bootstrap.main p [])
     = (map Bootstrap.WarnLine (warn_lines (snd (Bootstrap.main p [])))
        ++ Bootstrap.RunnerStarted true (Bootstrap.dirname p)
        :: map Bootstrap.ErrorLine (error_lines (snd (Bootstrap.main p []))))%list.
Proof.
  intros Hkeys. rewrite main_run, Hkeys. unfold rejection_report. cbn [snd].
  destruct (Js.truthy_opt (Bootstrap.AGENTUITY_URL p));
    destruct (Bootstrap.runner p true (Bootstrap.dirname p)) as [[m st|r]|];
    split; reflexivity.
Qed.

End StartUpExtras.

Section StartUpWitnesses.

Lemma main_without_keys_witness :
  keys_set Sample.bare_process = false
  /\ exists hint,
       Bootstrap.main Sample.bare_process []
       = (Bootstrap.Exited 1,
          Bootstrap.ErrorLine (Some Bootstrap.missing_key_message) :: hint).
Proof.
  split; [reflexivity|].
  destruct (main_without_keys Sample.bare_process eq_refl) as (hint & Hrun & _).
  exists hint. exact Hrun.
Defined.

Lemma main_with_key_witness :
  keys_set Sample.failing_process = true
  /\ error_lines (snd (Bootstrap.main Sample.failing_process []))
     = [Some "port in use"; Some "Error: port in use"].
Proof.
  split; [reflexivity|].
  exact (proj1 (main_with_key Sample.failing_process eq_refl)).
Defined.

End StartUpWitnesses.
